(** * LatentRolloutVisualizer: a shallow embedding of the rollout engine

  The development follows [src/LatentRolloutVisualizer.jsx]: the numbers
  of the script are binary64 values, typed arrays round or clamp on
  store, the component state lives in React state cells that are updated
  through queued setter calls, and the two ONNX sessions answer
  asynchronously. *)

From Stdlib Require Import ZArith Bool Lia.
From Stdlib Require Import Floats.SpecFloat.
From stdpp Require Import gmap strings list pretty.

Local Open Scope Z_scope.

(** ** Numbers of the script *)

Module JS.

(** A script number is an IEEE 754 binary64 value. *)
Definition number : Type := spec_float.

Definition prec64 : Z := 53.
Definition emax64 : Z := 1024.
Definition prec32 : Z := 24.
Definition emax32 : Z := 128.

Definition NaN : number := S754_nan.

Definition of_Z (z : Z) : number := binary_normalize prec64 emax64 z 0 false.

Definition mul (x y : number) : number := SFmul prec64 emax64 x y.
Definition div (x y : number) : number := SFdiv prec64 emax64 x y.

Definition leb (x y : number) : bool := SFleb x y.
Definition ltb (x y : number) : bool := SFltb x y.

(** [Math.fround], which is also what a store into a [Float32Array]
    followed by a read does: round to the nearest binary32 value, then
    write that value as a binary64 number again, which is exact. *)
Definition fround (x : number) : number :=
  match x with
  | S754_finite s m e =>
      match binary_round prec32 emax32 s m e with
      | S754_finite s' m' e' => binary_round prec64 emax64 s' m' e'
      | y => y
      end
  | _ => x
  end.

(** [Math.round]: the nearest integer, ties towards +infinity; NaN,
    infinities and zeros are returned as they are, and a result that is
    zero keeps the sign of the argument. For a finite [x = n * 2^e] with
    [e < 0] the result is [floor ((2 n + 2^-e) / 2^(1-e))]. *)
Definition Math_round (x : number) : number :=
  match x with
  | S754_finite s m e =>
      if 0 <=? e then x
      else
        let n := cond_Zopp s (Zpos m) in
        binary_normalize prec64 emax64
          ((2 * n + 2 ^ (- e)) / 2 ^ (1 - e)) 0 s
  | _ => x
  end.

(** [Math.min] and [Math.max] of two numbers: NaN when either is NaN,
    and -0 counts as smaller than +0. *)
Definition Math_min (a b : number) : number :=
  match SFcompare a b with
  | None => NaN
  | Some Lt => a
  | Some Gt => b
  | Some Eq =>
      match a, b with
      | S754_zero true, _ => a
      | _, S754_zero true => b
      | _, _ => a
      end
  end.

Definition Math_max (a b : number) : number :=
  match SFcompare a b with
  | None => NaN
  | Some Lt => b
  | Some Gt => a
  | Some Eq =>
      match a, b with
      | S754_zero false, _ => a
      | _, S754_zero false => b
      | _, _ => a
      end
  end.

(** The store into a [Uint8ClampedArray] (ToUint8Clamp): NaN gives 0,
    the value is clamped to [0, 255] and rounded to the nearest integer,
    ties to even. *)
Definition ToUint8Clamp (x : number) : Z :=
  match x with
  | S754_nan => 0
  | S754_zero _ => 0
  | S754_infinity s => if s then 0 else 255
  | S754_finite true _ _ => 0
  | S754_finite false m e =>
      if 0 <=? e then Z.min 255 (Zpos m * 2 ^ e)
      else
        let d := 2 ^ (- e) in
        let f := Zpos m / d in
        let r := Zpos m mod d in
        let rounded :=
          match Z.compare (2 * r) d with
          | Lt => f
          | Gt => f + 1
          | Eq => if Z.even f then f else f + 1
          end in
        Z.min 255 rounded
  end.

(** Reading index [i] of an array: outside the array the script gets
    [undefined], which every arithmetic use and every typed-array store
    below turns into NaN. *)
Definition get (a : list number) (i : nat) : number :=
  match a !! i with
  | Some v => v
  | None => NaN
  end.

(** [new Float32Array(n)] filled by [for (i < n) out[i] = src[i]]. *)
Definition toFloat32Array (n : nat) (src : list number) : list number :=
  (fun i => fround (get src i)) <$> seq 0 n.

(** [for (let i = 0; i < n; i++) body]. *)
Definition for_range {S : Type} (n : nat) (body : nat -> S -> S) (s : S) : S :=
  fold_left (fun acc i => body i acc) (seq 0 n) s.

End JS.

(** ** Constants of the component *)

Definition LATENT_DIM : nat := 16.
Definition IMG_H : nat := 96.
Definition IMG_W : nat := 96.
Definition SCALE : nat := 4.
Definition NUM_LAYERS : nat := 2.
Definition HIDDEN_DIM : nat := 128.

(** ** Planar float planes to interleaved RGBA bytes *)

Module Pixels.
Import JS.

Definition planeSize : nat := (IMG_H * IMG_W)%nat.

(** [sctx.createImageData(w, h).data]: transparent black. *)
Definition createImageData (w h : nat) : list Z :=
  replicate (w * h * 4)%nat 0.

(** The right-hand side of the three colour stores, together with the
    store itself. *)
Definition channelByte (v : number) : Z :=
  ToUint8Clamp
    (Math_max (of_Z 0) (Math_min (of_Z 255) (Math_round (mul v (of_Z 255))))).

(** Body of the inner loop at row [y], column [x]. *)
Definition pixel (data : list number) (y x : nat) (rgba : list Z) : list Z :=
  let idxHW := (y * IMG_W + x)%nat in
  let r := get data (0 * planeSize + idxHW)%nat in
  let g := get data (1 * planeSize + idxHW)%nat in
  let b := get data (2 * planeSize + idxHW)%nat in
  let idxRGBA := (idxHW * 4)%nat in
  let rgba := <[(idxRGBA + 0)%nat := channelByte r]> rgba in
  let rgba := <[(idxRGBA + 1)%nat := channelByte g]> rgba in
  let rgba := <[(idxRGBA + 2)%nat := channelByte b]> rgba in
  <[(idxRGBA + 3)%nat := 255]> rgba.

(** The two nested loops over the image. *)
Definition fillImage (data : list number) (rgba : list Z) : list Z :=
  for_range IMG_H (fun y => for_range IMG_W (fun x => pixel data y x)) rgba.

(** What [putImageData] receives for a decoder output [data]. *)
Definition toRGBA (data : list number) : list Z :=
  fillImage data (createImageData IMG_W IMG_H).

(** [drawImage] of a [w] by [h] source onto a canvas [SCALE] times as
    wide and high, smoothing disabled: every destination pixel copies the
    four bytes of the source pixel under it. *)
Definition drawImage (w h : nat) (small : list Z) : list Z :=
  flat_map (fun Y =>
    flat_map (fun X =>
      take 4 (drop (((Y / SCALE) * w + X / SCALE) * 4)%nat small))
      (seq 0 (w * SCALE)%nat))
    (seq 0 (h * SCALE)%nat).

(** The byte asked for at channel [c] of pixel [p]: the clamped, rounded
    value of plane [c] for the three colours, 255 for alpha. *)
Definition interleaved (data : list number) (p c : nat) : Z :=
  match c with
  | 0%nat | 1%nat | 2%nat => channelByte (get data (c * planeSize + p)%nat)
  | _ => 255
  end.

(** A decimal [num/den] as an element of a [Float32Array]. *)
Definition f32 (num den : Z) : number := fround (div (of_Z num) (of_Z den)).

Arguments toRGBA : simpl never.
Arguments drawImage : simpl never.

End Pixels.

(** ** The inference runtime: tensors and sessions *)

Module Ort.
Import JS.

Record Tensor := { data : list number; dims : list nat }.

(** Outcome of a call that may throw; the payload of [Throw] is
    [String(e)]. *)
Inductive result (A : Type) : Type :=
| Ok (a : A)
| Throw (msg : string).
Arguments Ok {A} a.
Arguments Throw {A} msg.

Definition bind {A B : Type} (r : result A) (k : A -> result B) : result B :=
  match r with
  | Ok a => k a
  | Throw msg => Throw msg
  end.

Definition size (ds : list nat) : nat := foldr Nat.mul 1%nat ds.

(** [new ort.Tensor("float32", data, dims)] rejects a buffer whose
    length is not the product of the dimensions. *)
Definition newTensor (d : list number) (ds : list nat) : result Tensor :=
  if decide (length d = size ds)
  then Ok {| data := d; dims := ds |}
  else Throw "Error: Tensor's size does not match data length".

(** A loaded session: [run] maps named input tensors to named output
    tensors, or rejects. *)
Definition Session : Type := gmap string Tensor -> result (gmap string Tensor).

(** Reading [.data] of an output that is missing. *)
Definition undefined_data : string :=
  "TypeError: Cannot read properties of undefined (reading 'data')".

Definition output_data (outputs : gmap string Tensor) (name : string)
  : result (list number) :=
  match outputs !! name with
  | Some t => Ok (data t)
  | None => Throw undefined_data
  end.

End Ort.

(** ** The component: React state, handlers, effects and the event loop *)

Module Engine.
Import JS Ort.

(** The seven [useState] cells, as the closures of the last render see
    them. *)
Record State := {
  decoderSession : option Session;
  lstmSession : option Session;
  loading : bool;
  error : option string;
  latent : list number;
  hData : option (list number);
  cData : option (list number)
}.

(** A setter call. Setter calls made while one task runs are queued and
    applied, in call order, by the render that follows the task. *)
Inductive update : Type :=
| setDecoderSession (s : Session)
| setLstmSession (s : Session)
| setLoading (b : bool)
| setError (msg : string)
| setLatent (f : list number -> list number)
| setHData (v : option (list number))
| setCData (v : option (list number)).

Definition apply_update (s : State) (u : update) : State :=
  match u with
  | setDecoderSession d =>
      {| decoderSession := Some d; lstmSession := lstmSession s;
         loading := loading s; error := error s; latent := latent s;
         hData := hData s; cData := cData s |}
  | setLstmSession l =>
      {| decoderSession := decoderSession s; lstmSession := Some l;
         loading := loading s; error := error s; latent := latent s;
         hData := hData s; cData := cData s |}
  | setLoading b =>
      {| decoderSession := decoderSession s; lstmSession := lstmSession s;
         loading := b; error := error s; latent := latent s;
         hData := hData s; cData := cData s |}
  | setError msg =>
      {| decoderSession := decoderSession s; lstmSession := lstmSession s;
         loading := loading s; error := Some msg; latent := latent s;
         hData := hData s; cData := cData s |}
  | setLatent f =>
      {| decoderSession := decoderSession s; lstmSession := lstmSession s;
         loading := loading s; error := error s; latent := f (latent s);
         hData := hData s; cData := cData s |}
  | setHData v =>
      {| decoderSession := decoderSession s; lstmSession := lstmSession s;
         loading := loading s; error := error s; latent := latent s;
         hData := v; cData := cData s |}
  | setCData v =>
      {| decoderSession := decoderSession s; lstmSession := lstmSession s;
         loading := loading s; error := error s; latent := latent s;
         hData := hData s; cData := v |}
  end.

Definition apply_updates (us : list update) (s : State) : State :=
  fold_left apply_update us s.

(** A [run] call that has been made and has not settled yet. *)
Record Call := {
  call_id : nat;
  call_feeds : gmap string Tensor;
  call_outcome : result (gmap string Tensor)
}.

(** The mounted component with its surroundings: the committed state, the
    two canvases behind the refs, and the calls in flight. *)
Record Engine := {
  st : State;
  smallCanvas : option (list Z);
  bigCanvas : option (list Z);
  decodes : list Call;
  steps : list Call;
  nextId : nat
}.

Definition with_st (s : State) (e : Engine) : Engine :=
  {| st := s; smallCanvas := smallCanvas e; bigCanvas := bigCanvas e;
     decodes := decodes e; steps := steps e; nextId := nextId e |}.

Definition with_decodes (ds : list Call) (n : nat) (e : Engine) : Engine :=
  {| st := st e; smallCanvas := smallCanvas e; bigCanvas := bigCanvas e;
     decodes := ds; steps := steps e; nextId := n |}.

Definition with_steps (ss : list Call) (n : nat) (e : Engine) : Engine :=
  {| st := st e; smallCanvas := smallCanvas e; bigCanvas := bigCanvas e;
     decodes := decodes e; steps := ss; nextId := n |}.

Definition with_smallCanvas (c : list Z) (e : Engine) : Engine :=
  {| st := st e; smallCanvas := Some c; bigCanvas := bigCanvas e;
     decodes := decodes e; steps := steps e; nextId := nextId e |}.

Definition with_bigCanvas (c : list Z) (e : Engine) : Engine :=
  {| st := st e; smallCanvas := smallCanvas e; bigCanvas := Some c;
     decodes := decodes e; steps := steps e; nextId := nextId e |}.

(** The synchronous part of [runDecoder]: the guard, the input tensor and
    the [run] call. A throw before the [await] lands in the [catch]. *)
Definition runDecoder (e : Engine) : Engine :=
  match decoderSession (st e), smallCanvas e, bigCanvas e with
  | Some dec, Some _, Some _ =>
      let zData := toFloat32Array LATENT_DIM (latent (st e)) in
      match newTensor zData [1%nat; LATENT_DIM] with
      | Ok zTensor =>
          let feeds : gmap string Tensor := {[ "z" := zTensor ]} in
          with_decodes
            (decodes e ++
               [{| call_id := nextId e; call_feeds := feeds;
                   call_outcome := dec feeds |}])
            (S (nextId e)) e
      | Throw msg => with_st (apply_update (st e) (setError msg)) e
      end
  | _, _, _ => e
  end.

(** Every [setLatent] and [setDecoderSession] call of this component
    passes a fresh object, so each one changes a dependency of the decode
    effect. *)
Definition touches_decode_deps (u : update) : bool :=
  match u with
  | setLatent _ | setDecoderSession _ => true
  | _ => false
  end.

(** The render and commit that follow a task: apply the queued setter
    calls, then run the decode effect if one of its dependencies
    changed. *)
Definition commit (us : list update) (e : Engine) : Engine :=
  let e' := with_st (apply_updates us (st e)) e in
  if existsb touches_decode_deps us then runDecoder e' else e'.

(** [next[idx] = value] on a copy of [prev]; an index past the end
    extends the array, the skipped slots being holes. *)
Definition array_set (prev : list number) (idx : nat) (value : number)
  : list number :=
  if decide (idx < length prev)%nat
  then <[idx := value]> prev
  else prev ++ replicate (idx - length prev)%nat NaN ++ [value].

Definition handleSliderChange (idx : nat) (value : number) (e : Engine)
  : Engine :=
  commit [setLatent (fun prev => array_set prev idx value)] e.

Definition zeroLatent : list number := replicate LATENT_DIM (of_Z 0).

Definition resetLatentAndHidden (e : Engine) : Engine :=
  commit [setLatent (fun _ => zeroLatent); setHData None; setCData None] e.

(** [new Float32Array(n)]. *)
Definition zeros (n : nat) : list number := replicate n (of_Z 0).

(** The hidden and cell buffers handed to the model. *)
Definition hidden_buffers (s : State) : list number * list number :=
  match hData s, cData s with
  | Some hArr, Some cArr => (hArr, cArr)
  | _, _ => (zeros (NUM_LAYERS * 1 * HIDDEN_DIM), zeros (NUM_LAYERS * 1 * HIDDEN_DIM))
  end.

(** The four input tensors of a step, built from the state the handler
    closed over. *)
Definition stepFeeds (actionVal : number) (s : State)
  : result (gmap string Tensor) :=
  let zArr := toFloat32Array LATENT_DIM (latent s) in
  bind (newTensor zArr [1%nat; LATENT_DIM]) (fun latentTensor =>
  bind (newTensor [fround actionVal] [1%nat; 1%nat]) (fun actionTensor =>
  let '(hArr, cArr) := hidden_buffers s in
  bind (newTensor hArr [NUM_LAYERS; 1%nat; HIDDEN_DIM]) (fun hTensor =>
  bind (newTensor cArr [NUM_LAYERS; 1%nat; HIDDEN_DIM]) (fun cTensor =>
  Ok (<["latent" := latentTensor]>
      (<["action" := actionTensor]>
      (<["h0" := hTensor]>
      ({[ "c0" := cTensor ]} : gmap string Tensor)))))))).

(** [stepWithAction] up to its [await]. *)
Definition stepWithAction (actionVal : number) (e : Engine) : Engine :=
  match lstmSession (st e) with
  | None => e
  | Some lstm =>
      match stepFeeds actionVal (st e) with
      | Ok feeds =>
          with_steps
            (steps e ++
               [{| call_id := nextId e; call_feeds := feeds;
                   call_outcome := lstm feeds |}])
            (S (nextId e)) e
      | Throw msg => commit [setError msg] e
      end
  end.

(** [stepWithAction] after its [await]: the setter calls made, in order,
    for a given outcome of the [run] call. Reading [.data] of a missing
    output throws at that statement; the setter calls made before it
    stay queued. *)
Definition stepSettled (outcome : result (gmap string Tensor)) : list update :=
  match outcome with
  | Throw msg => [setError msg]
  | Ok outputs =>
      match output_data outputs "next_latent" with
      | Throw msg => [setError msg]
      | Ok nextLatentArr =>
          setLatent (fun _ => nextLatentArr) ::
          match output_data outputs "h1" with
          | Throw msg => [setError msg]
          | Ok h1 =>
              setHData (Some (fround <$> h1)) ::
              match output_data outputs "c1" with
              | Throw msg => [setError msg]
              | Ok c1 => [setCData (Some (fround <$> c1))]
              end
          end
      end
  end.

(** [runDecoder] after its [await]. *)
Definition decodeSettled (outcome : result (gmap string Tensor)) (e : Engine)
  : Engine :=
  match outcome with
  | Throw msg => commit [setError msg] e
  | Ok outputs =>
      match output_data outputs "x_recon", smallCanvas e with
      | Throw msg, _ => commit [setError msg] e
      | Ok _, None => commit [setError "TypeError: smallCanvas is null"] e
      | Ok d, Some _ =>
          let rgba := Pixels.toRGBA d in
          let e1 := with_smallCanvas rgba e in
          match bigCanvas e1 with
          | None => commit [setError "TypeError: bigCanvas is null"] e1
          | Some _ => with_bigCanvas (Pixels.drawImage IMG_W IMG_H rgba) e1
          end
      end
  end.

(** The message [runDecoder] reports after its [await], if any. *)
Definition decodeSettled_error (outcome : result (gmap string Tensor)) (e : Engine)
  : option string :=
  match outcome with
  | Throw msg => Some msg
  | Ok outputs =>
      match output_data outputs "x_recon", smallCanvas e, bigCanvas e with
      | Throw msg, _, _ => Some msg
      | Ok _, None, _ => Some "TypeError: smallCanvas is null"
      | Ok _, Some _, None => Some "TypeError: bigCanvas is null"
      | Ok _, Some _, Some _ => None
      end
  end.

(** Truthiness of a cell that holds an object or [null]. *)
Definition truthy {A : Type} (o : option A) : bool :=
  match o with
  | Some _ => true
  | None => false
  end.

Definition disabled (s : State) : bool :=
  loading s || negb (truthy (decoderSession s)) || negb (truthy (lstmSession s)).

(** The [for] loop of a batch of setter calls rendered one by one, as a
    root without automatic batching does for calls made after an
    [await]. *)
Definition commit_each (us : list update) (e : Engine) : Engine :=
  fold_left (fun acc u => commit [u] acc) us e.

(** *** The control surface *)

(** The two buttons call [stepWithAction(0)] and [stepWithAction(1)]. *)
Inductive ActionCode : Type := LEFT | RIGHT.

Definition action_value (a : ActionCode) : number :=
  match a with
  | LEFT => of_Z 0
  | RIGHT => of_Z 1
  end.

(** The range input: [min={-3} max={3} step={0.05}]. Its value is one of
    the steps [min + k * 0.05], written as a decimal numeral, and
    [Number] reads the numeral as the nearest binary64 value, which is
    the quotient of the two integers below. A thumb position outside the
    track is brought back to its nearest end. *)
Definition slider_min : Z := -3.
Definition slider_max : Z := 3.
Definition slider_step_num : Z := 5.
Definition slider_step_den : Z := 100.

Definition slider_steps : Z :=
  (slider_max - slider_min) * slider_step_den / slider_step_num.

Definition sliderValue (k : Z) : number :=
  let k' := Z.max 0 (Z.min slider_steps k) in
  div (of_Z (slider_min * slider_step_den + slider_step_num * k'))
      (of_Z slider_step_den).

(** *** The event loop *)

(** Removes the call with the given id from the calls in flight. *)
Fixpoint take_call (id : nat) (cs : list Call) : option (Call * list Call) :=
  match cs with
  | [] => None
  | c :: cs' =>
      if decide (call_id c = id) then Some (c, cs')
      else
        match take_call id cs' with
        | Some (c', rest) => Some (c', c :: rest)
        | None => None
        end
  end.

(** The tasks the event loop can run: the settlement of [Promise.all] in
    [loadModels], the three kinds of user input, and the settlement of a
    decoder or dynamics call in flight. *)
Inductive event : Type :=
| ModelsLoaded (dec lstm : Session)
| ModelsFailed (msg : string)
| SliderInput (i : nat) (k : Z)
| ClickAction (a : ActionCode)
| ClickReset
| DecodeSettles (id : nat)
| StepSettles (id : nat).

Definition dispatch (ev : event) (e : Engine) : Engine :=
  match ev with
  | ModelsLoaded dec lstm =>
      if loading (st e)
      then commit [setDecoderSession dec; setLstmSession lstm; setLoading false] e
      else e
  | ModelsFailed msg =>
      if loading (st e)
      then commit [setError msg; setLoading false] e
      else e
  | SliderInput i k =>
      (* one slider per element of [latent] *)
      if decide (i < length (latent (st e)))%nat
      then handleSliderChange i (sliderValue k) e
      else e
  | ClickAction a =>
      if disabled (st e) then e else stepWithAction (action_value a) e
  | ClickReset => resetLatentAndHidden e
  | DecodeSettles id =>
      match take_call id (decodes e) with
      | Some (c, rest) =>
          decodeSettled (call_outcome c) (with_decodes rest (nextId e) e)
      | None => e
      end
  | StepSettles id =>
      match take_call id (steps e) with
      | Some (c, rest) =>
          commit (stepSettled (call_outcome c)) (with_steps rest (nextId e) e)
      | None => e
      end
  end.

Definition run (evs : list event) (e : Engine) : Engine :=
  fold_left (fun acc ev => dispatch ev acc) evs e.

(** The state of the [useState] initialisers. *)
Definition initialState : State :=
  {| decoderSession := None; lstmSession := None; loading := true;
     error := None; latent := replicate LATENT_DIM (of_Z 0);
     hData := None; cData := None |}.

(** A canvas before anything is drawn on it. *)
Definition blankCanvas (w h : nat) : list Z := replicate (w * h * 4)%nat 0.

(** The component after its first commit: both canvases are behind their
    refs, [loadModels] has called [setLoading(true)] and is waiting, and
    the decode effect has run once. *)
Definition mount : Engine :=
  commit [setLoading true]
    (runDecoder
       {| st := initialState;
          smallCanvas := Some (blankCanvas IMG_W IMG_H);
          bigCanvas := Some (blankCanvas (IMG_W * SCALE) (IMG_H * SCALE));
          decodes := []; steps := []; nextId := 0%nat |}).

(** *** Views used in the statements *)

(** What the specification calls the engine state: the latent vector and
    the recurrent state. *)
Definition engine_state (e : Engine) : list number * option (list number) * option (list number) :=
  (latent (st e), hData (st e), cData (st e)).

(** The decode effect gets past its guard. *)
Definition canDecode (e : Engine) : Prop :=
  is_Some (decoderSession (st e)) /\ is_Some (smallCanvas e) /\ is_Some (bigCanvas e).

Definition with_hidden (h c : option (list number)) (e : Engine) : Engine :=
  with_st (apply_updates [setHData h; setCData c] (st e)) e.

(** Every element is a binary32 value. *)
Definition float32_data (d : list number) : Prop := fround <$> d = d.

(** The call the decode effect makes for a latent vector. *)
Definition decodeFeeds (z : list number) : gmap string Tensor :=
  {[ "z" := {| data := toFloat32Array LATENT_DIM z; dims := [1%nat; LATENT_DIM] |} ]}.

(** The four tensors of a dynamics call. *)
Definition stepCallFeeds (z : list number) (actionVal : number)
  (hArr cArr : list number) : gmap string Tensor :=
  <["latent" := {| data := toFloat32Array LATENT_DIM z; dims := [1%nat; LATENT_DIM] |}]>
  (<["action" := {| data := [fround actionVal]; dims := [1%nat; 1%nat] |}]>
  (<["h0" := {| data := hArr; dims := [NUM_LAYERS; 1%nat; HIDDEN_DIM] |}]>
  ({[ "c0" := {| data := cArr; dims := [NUM_LAYERS; 1%nat; HIDDEN_DIM] |} ]}
     : gmap string Tensor))).

(** Ids of calls in flight are below the next id to hand out. *)
Definition well_formed (e : Engine) : Prop :=
  Forall (fun c => call_id c < nextId e)%nat (decodes e)
  /\ Forall (fun c => call_id c < nextId e)%nat (steps e).

(** The ordering rule: of two decoder calls in flight, [c1] made before
    [c2], with [c2] answering first and [c1] later, the frame left on the
    two canvases is the one of [c2]. *)
Definition latest_request_wins : Prop :=
  forall (e : Engine) (c1 c2 : Call) (pre mid post : list Call)
         (out1 out2 : gmap string Tensor) (t1 t2 : Tensor) (sc bc : list Z),
    decodes e = pre ++ c1 :: mid ++ c2 :: post ->
    NoDup (call_id <$> decodes e) ->
    call_outcome c1 = Ok out1 -> out1 !! "x_recon" = Some t1 ->
    call_outcome c2 = Ok out2 -> out2 !! "x_recon" = Some t2 ->
    smallCanvas e = Some sc -> bigCanvas e = Some bc ->
    let e' := run [DecodeSettles (call_id c2); DecodeSettles (call_id c1)] e in
    smallCanvas e' = Some (Pixels.toRGBA (data t2))
    /\ bigCanvas e' = Some (Pixels.drawImage IMG_W IMG_H (Pixels.toRGBA (data t2))).

(** The three requests of the control surface, as opposed to the
    settlements of calls. *)
Definition is_request (ev : event) : bool :=
  match ev with
  | SliderInput _ _ | ClickAction _ | ClickReset => true
  | _ => false
  end.

Definition in_slider_range (v : number) : bool :=
  leb (of_Z slider_min) v && leb v (of_Z slider_max).

End Engine.

(** ** Stand-ins for the two models *)

Module Mock.
Import JS Ort Engine.

Definition ones (n : nat) : list number := replicate n (of_Z 1).

Definition unitLatent : list number := of_Z 1 :: replicate 15 (of_Z 0).

(** A dynamics model that answers [next_latent = [1,0,...,0]] and
    [h1 = c1 = ones]. *)
Definition lstmOnes : Session := fun _ =>
  Ok (<["next_latent" := {| data := unitLatent; dims := [1%nat; LATENT_DIM] |}]>
     (<["h1" := {| data := ones 256; dims := [NUM_LAYERS; 1%nat; HIDDEN_DIM] |}]>
     ({[ "c1" := {| data := ones 256; dims := [NUM_LAYERS; 1%nat; HIDDEN_DIM] |} ]}
        : gmap string Tensor))).

(** A dynamics model that moves every component to 7. *)
Definition lstmSevens : Session := fun _ =>
  Ok (<["next_latent" := {| data := replicate 16 (of_Z 7); dims := [1%nat; LATENT_DIM] |}]>
     (<["h1" := {| data := ones 256; dims := [NUM_LAYERS; 1%nat; HIDDEN_DIM] |}]>
     ({[ "c1" := {| data := ones 256; dims := [NUM_LAYERS; 1%nat; HIDDEN_DIM] |} ]}
        : gmap string Tensor))).

(** A dynamics model whose every call is rejected. *)
Definition lstmFails : Session := fun _ => Throw "Error: inference failed".

(** Three planes painted with the first component of [z]. *)
Definition flatFrame (z : list number) : Tensor :=
  {| data := replicate (3 * Pixels.planeSize) (get z 0);
     dims := [1%nat; 3%nat; IMG_H; IMG_W] |}.

(** A decoder that paints every plane with the first latent component. *)
Definition decoderFlat : Session := fun feeds =>
  match feeds !! "z" with
  | Some t => Ok {[ "x_recon" := flatFrame (data t) ]}
  | None => Throw "Error: input z is missing"
  end.

(** Both models loaded, nothing else done yet. *)
Definition loaded (lstm : Session) : Engine :=
  dispatch (ModelsLoaded decoderFlat lstm) mount.

End Mock.

(** ** The rendered labels *)

Module Render.
Import JS Engine.

(** The integer [n] for which [n / 100] is closest to [m * 2^e], the
    larger one on a tie. *)
Definition nearest_hundredths (m : positive) (e : Z) : Z :=
  if 0 <=? e then Zpos m * 2 ^ e * 100
  else (2 * (Zpos m * 100) + 2 ^ (- e)) / 2 ^ (1 - e).

(** [10^21 <= m * 2^e], where [toFixed] falls back on [ToString]. *)
Definition beyond_fixed (m : positive) (e : Z) : bool :=
  if 0 <=? e then 10 ^ 21 <=? Zpos m * 2 ^ e
  else 10 ^ 21 * 2 ^ (- e) <=? Zpos m.

(** The digits of [n] with a point before the last two, padded with
    zeros to at least three digits. *)
Definition fixed2 (n : Z) : string :=
  let digits := pretty (Z.to_N n) in
  let k := String.length digits in
  let padded :=
    match k with
    | 1%nat => "00" +:+ digits
    | 2%nat => "0" +:+ digits
    | _ => digits
    end in
  let k' := String.length padded in
  String.substring 0 (k' - 2) padded +:+ "." +:+ String.substring (k' - 2) 2 padded.

(** [value.toFixed(2)]. A finite value of [10^21] or more is printed by
    [ToString] in exponent notation, which is left out here. *)
Definition toFixed2 (x : number) : option string :=
  match x with
  | S754_nan => Some "NaN"
  | S754_infinity s => Some (if s then "-Infinity" else "Infinity")
  | S754_zero _ => Some "0.00"
  | S754_finite s m e =>
      if beyond_fixed m e then None
      else Some ((if s then "-" else "") +:+ fixed2 (nearest_hundredths m e))
  end.

(** The text of the label of slider [i]. *)
Definition label (i : nat) (value : number) : option string :=
  match toFixed2 value with
  | Some digits => Some ("z[" +:+ pretty i +:+ "] = " +:+ digits)
  | None => None
  end.

(** [latent.map((value, i) => ...)]: one label per component. *)
Definition labels (s : State) : list (option string) :=
  imap label (latent s).

(** A number of hundredths written as a decimal numeral with two
    decimals. *)
Definition decimal2 (c : Z) : string :=
  (if c <? 0 then "-" else "")
  +:+ pretty (Z.to_N (Z.abs c / 100)) +:+ "."
  +:+ pretty (Z.to_N (Z.abs c mod 100 / 10))
  +:+ pretty (Z.to_N (Z.abs c mod 10)).

(** The hundredths of the step the range input is on. *)
Definition slider_hundredths (k : Z) : Z :=
  slider_min * slider_step_den
  + slider_step_num * Z.max 0 (Z.min slider_steps k).

End Render.

(** ** Predicates on events, sessions and engines *)

Module Facts.
Import JS Ort Engine.

Definition is_step_settle (ev : event) : bool :=
  match ev with
  | StepSettles _ => true
  | _ => false
  end.

Definition is_models_loaded (ev : event) : bool :=
  match ev with
  | ModelsLoaded _ _ => true
  | _ => false
  end.

(** No session and no call in flight. *)
Definition unloaded (e : Engine) : Prop :=
  decoderSession (st e) = None /\ lstmSession (st e) = None
  /\ decodes e = [] /\ steps e = [].

(** An answer of the dynamics model that follows the tensor contract:
    the three outputs, of 16, 256 and 256 entries. *)
Definition answer_conforms (outcome : result (gmap string Tensor)) : Prop :=
  match outcome with
  | Throw _ => True
  | Ok outputs =>
      exists nl h1 c1,
        outputs !! "next_latent" = Some nl /\ outputs !! "h1" = Some h1
        /\ outputs !! "c1" = Some c1
        /\ length (data nl) = 16%nat /\ length (data h1) = 256%nat
        /\ length (data c1) = 256%nat
  end.

Definition session_conforms (lstm : Session) : Prop :=
  forall feeds, answer_conforms (lstm feeds).

(** Every dynamics model that gets loaded follows the contract. *)
Definition events_conform (evs : list event) : Prop :=
  Forall (fun ev => match ev with
                    | ModelsLoaded _ lstm => session_conforms lstm
                    | _ => True
                    end) evs.

(** The shape of the data the engine holds. *)
Definition data_shaped (s : State) : Prop :=
  length (latent s) = 16%nat
  /\ ((hData s = None /\ cData s = None)
      \/ exists h c, hData s = Some h /\ cData s = Some c
                     /\ length h = 256%nat /\ length c = 256%nat).

(** An engine whose data has the contract's shape, whose dynamics
    model, if loaded, follows the contract, and whose dynamics calls in
    flight will answer accordingly. *)
Definition conforming (e : Engine) : Prop :=
  data_shaped (st e)
  /\ (forall l, lstmSession (st e) = Some l -> session_conforms l)
  /\ Forall (fun c => answer_conforms (call_outcome c)) (steps e).

(** A setter call that leaves the two sessions and the loading flag
    alone. *)
Definition keeps_flags (u : update) : bool :=
  match u with
  | setDecoderSession _ | setLstmSession _ | setLoading _ => false
  | _ => true
  end.

(** A decoder value that is NaN, a zero, negative or minus infinity. *)
Definition not_positive (v : number) : bool :=
  match v with
  | S754_nan => true
  | S754_zero _ => true
  | S754_infinity s => s
  | S754_finite s _ _ => s
  end.

End Facts.

(** * Properties *)

(** ** Loops and typed arrays *)

Section Loops.
Import JS.
Context {S : Type}.

Lemma for_range_S (n : nat) (body : nat -> S -> S) (s : S) :
  for_range (Datatypes.S n) body s = body n (for_range n body s).
Proof.
  unfold for_range. rewrite seq_S, fold_left_app. reflexivity.
Qed.

Lemma for_range_add (a b : nat) (body : nat -> S -> S) (s : S) :
  for_range (a + b) body s
  = for_range b (fun x => body (a + x)%nat) (for_range a body s).
Proof.
  induction b as [|b IH].
  - rewrite Nat.add_0_r. reflexivity.
  - rewrite Nat.add_succ_r, !for_range_S, IH. reflexivity.
Qed.

(** Two nested loops that only use the row-major index are one loop. *)
Lemma for_range_nested (h w : nat) (body : nat -> S -> S) (s : S) :
  for_range h (fun y => for_range w (fun x => body (y * w + x)%nat)) s
  = for_range (h * w) body s.
Proof.
  induction h as [|h IH].
  - reflexivity.
  - rewrite for_range_S, IH.
    replace (Datatypes.S h * w)%nat with (h * w + w)%nat by lia.
    rewrite for_range_add. reflexivity.
Qed.

End Loops.

Section PixelFacts.
Import JS Pixels.

Lemma pixel_row_major (data : list number) (y x : nat) :
  pixel data y x = pixel data 0 (y * IMG_W + x).
Proof. reflexivity. Qed.

Lemma fillImage_flat (data : list number) (rgba : list Z) :
  fillImage data rgba = for_range planeSize (pixel data 0) rgba.
Proof.
  unfold fillImage, planeSize.
  rewrite <- (for_range_nested IMG_H IMG_W (pixel data 0) rgba).
  reflexivity.
Qed.

Lemma pixel_length (data : list number) (p : nat) (rgba : list Z) :
  length (pixel data 0 p rgba) = length rgba.
Proof. unfold pixel. rewrite !length_insert. reflexivity. Qed.

Lemma flat_loop_length (data : list number) (n : nat) (rgba : list Z) :
  length (for_range n (pixel data 0) rgba) = length rgba.
Proof.
  induction n as [|n IH]; [reflexivity|].
  rewrite for_range_S, pixel_length. exact IH.
Qed.

(** One pass of the loop body writes the four bytes of its own pixel and
    nothing else. *)
Lemma pixel_lookup (data : list number) (q p c : nat) (rgba : list Z) :
  (c < 4)%nat -> (p * 4 + c < length rgba)%nat ->
  pixel data 0 q rgba !! (p * 4 + c)%nat
  = if decide (p = q) then Some (interleaved data p c)
    else rgba !! (p * 4 + c)%nat.
Proof.
  intros Hc Hlen. unfold pixel. cbn zeta.
  change (0 * IMG_W + q)%nat with q.
  destruct (decide (p = q)) as [->|Hne].
  - destruct c as [|[|[|[|c]]]]; try lia; unfold interleaved.
    + rewrite !list_lookup_insert_ne by lia.
      rewrite list_lookup_insert_eq by lia. reflexivity.
    + rewrite !list_lookup_insert_ne by lia.
      rewrite list_lookup_insert_eq by (rewrite ?length_insert; lia).
      reflexivity.
    + rewrite !list_lookup_insert_ne by lia.
      rewrite list_lookup_insert_eq by (rewrite ?length_insert; lia).
      reflexivity.
    + rewrite list_lookup_insert_eq by (rewrite ?length_insert; lia).
      reflexivity.
  - rewrite !list_lookup_insert_ne by lia. reflexivity.
Qed.

Lemma flat_loop_lookup (data : list number) (n p c : nat) (rgba : list Z) :
  (c < 4)%nat -> (p * 4 + c < length rgba)%nat ->
  for_range n (pixel data 0) rgba !! (p * 4 + c)%nat
  = if decide (p < n)%nat then Some (interleaved data p c)
    else rgba !! (p * 4 + c)%nat.
Proof.
  intros Hc Hlen. induction n as [|n IH]; [reflexivity|].
  rewrite for_range_S, pixel_lookup by (rewrite ?flat_loop_length; lia).
  rewrite IH.
  destruct (decide (p = n)), (decide (p < n)%nat), (decide (p < Datatypes.S n)%nat);
    try lia; reflexivity.
Qed.

Lemma createImageData_length (w h : nat) :
  length (createImageData w h) = (w * h * 4)%nat.
Proof. apply length_replicate. Qed.

(** The buffer handed to [putImageData], byte by byte. *)
Lemma toRGBA_lookup (data : list number) (p c : nat) :
  (p < planeSize)%nat -> (c < 4)%nat ->
  toRGBA data !! (p * 4 + c)%nat = Some (interleaved data p c).
Proof.
  intros Hp Hc. unfold toRGBA. rewrite fillImage_flat.
  rewrite flat_loop_lookup.
  - destruct (decide (p < planeSize)%nat); [reflexivity|lia].
  - exact Hc.
  - rewrite createImageData_length. unfold planeSize in Hp.
    change (IMG_W * IMG_H)%nat with (IMG_H * IMG_W)%nat. lia.
Qed.

Lemma toRGBA_length (data : list number) :
  length (toRGBA data) = (planeSize * 4)%nat.
Proof.
  unfold toRGBA. rewrite fillImage_flat, flat_loop_length.
  apply createImageData_length.
Qed.

Lemma ToUint8Clamp_byte (x : number) : 0 <= ToUint8Clamp x <= 255.
Proof.
  destruct x as [s|s| |s m e]; simpl; try lia.
  - destruct s; lia.
  - destruct s; [lia|].
    destruct (0 <=? e) eqn:He.
    + apply Z.leb_le in He.
      assert (0 <= 2 ^ e) by (apply Z.pow_nonneg; lia). nia.
    + apply Z.leb_gt in He.
      assert (Hd : 0 < 2 ^ (- e)) by (apply Z.pow_pos_nonneg; lia).
      assert (0 <= Z.pos m / 2 ^ (- e)) by (apply Z.div_pos; lia).
      destruct (2 * (Z.pos m mod 2 ^ (- e)) ?= 2 ^ (- e)); [destruct (Z.even _)| |]; lia.
Qed.

End PixelFacts.

(** ** The commit and the decode effect *)

Section CommitFacts.
Import JS Ort Engine.

Lemma toFloat32Array_length (n : nat) (src : list number) :
  length (toFloat32Array n src) = n.
Proof. unfold toFloat32Array. rewrite length_fmap. apply length_seq. Qed.

(** The copy loop stores the rounding of each element: element [i] of
    the typed array is [src[i]] rounded to binary32. *)
Lemma toFloat32Array_lookup (n i : nat) (src : list number) :
  (i < n)%nat -> toFloat32Array n src !! i = Some (fround (get src i)).
Proof.
  intros Hi. unfold toFloat32Array.
  rewrite list_lookup_fmap, lookup_seq_lt by exact Hi. reflexivity.
Qed.

Lemma toFloat32Array_fmap (n : nat) (src : list number) :
  length src = n -> toFloat32Array n src = fround <$> src.
Proof.
  intros Hlen. apply list_eq. intros i.
  destruct (decide (i < n)%nat) as [Hi|Hi].
  - rewrite toFloat32Array_lookup by exact Hi. rewrite list_lookup_fmap. unfold get.
    destruct (lookup_lt_is_Some_2 src i) as [v Hv]; [lia|]. rewrite Hv. reflexivity.
  - rewrite !lookup_ge_None_2; [reflexivity| |].
    + rewrite length_fmap. lia.
    + rewrite toFloat32Array_length. lia.
Qed.

(** A latent of binary32 values reaches the tensor unchanged. *)
Lemma toFloat32Array_exact (n : nat) (src : list number) :
  length src = n -> float32_data src -> toFloat32Array n src = src.
Proof. intros Hlen Hf. rewrite toFloat32Array_fmap by exact Hlen. exact Hf. Qed.

Lemma decodeFeeds_fmap (z : list number) :
  length z = 16%nat ->
  decodeFeeds z = {[ "z" := {| data := fround <$> z; dims := [1; 16]%nat |} ]}.
Proof.
  intros Hlen. unfold decodeFeeds. rewrite toFloat32Array_fmap by exact Hlen.
  reflexivity.
Qed.

Lemma stepCallFeeds_fmap (z : list number) (actionVal : number)
  (hArr cArr : list number) :
  length z = 16%nat ->
  stepCallFeeds z actionVal hArr cArr
  = <["latent" := {| data := fround <$> z; dims := [1; 16]%nat |}]>
    (<["action" := {| data := [fround actionVal]; dims := [1; 1]%nat |}]>
    (<["h0" := {| data := hArr; dims := [2; 1; 128]%nat |}]>
    ({[ "c0" := {| data := cArr; dims := [2; 1; 128]%nat |} ]}
       : gmap string Tensor))).
Proof.
  intros Hlen. unfold stepCallFeeds. rewrite toFloat32Array_fmap by exact Hlen.
  reflexivity.
Qed.

(** The input tensor of the decoder always has the right size. *)
Lemma newTensor_latent (z : list number) :
  newTensor (toFloat32Array LATENT_DIM z) [1%nat; LATENT_DIM]
  = Ok {| data := toFloat32Array LATENT_DIM z; dims := [1%nat; LATENT_DIM] |}.
Proof.
  unfold newTensor. rewrite toFloat32Array_length.
  destruct (decide _) as [_|H]; [reflexivity|]. exfalso. apply H. reflexivity.
Qed.

Lemma runDecoder_ready (e : Engine) (dec : Session) (sc bc : list Z) :
  decoderSession (st e) = Some dec -> smallCanvas e = Some sc ->
  bigCanvas e = Some bc ->
  runDecoder e
  = with_decodes
      (decodes e ++
         [{| call_id := nextId e; call_feeds := decodeFeeds (latent (st e));
             call_outcome := dec (decodeFeeds (latent (st e))) |}])
      (S (nextId e)) e.
Proof.
  intros Hd Hs Hb. unfold runDecoder. rewrite Hd, Hs, Hb, newTensor_latent.
  reflexivity.
Qed.

(** Without a decoder session the effect returns at its guard. *)
Lemma runDecoder_unloaded (e : Engine) :
  decoderSession (st e) = None -> runDecoder e = e.
Proof. intros H. unfold runDecoder. rewrite H. reflexivity. Qed.

Lemma runDecoder_st (e : Engine) : st (runDecoder e) = st e.
Proof.
  unfold runDecoder.
  destruct (decoderSession (st e)), (smallCanvas e), (bigCanvas e);
    reflexivity.
Qed.

Lemma runDecoder_steps (e : Engine) : steps (runDecoder e) = steps e.
Proof.
  unfold runDecoder.
  destruct (decoderSession (st e)), (smallCanvas e), (bigCanvas e);
    reflexivity.
Qed.

Lemma commit_st (us : list update) (e : Engine) :
  st (commit us e) = apply_updates us (st e).
Proof.
  unfold commit. destruct (existsb _ us); [rewrite runDecoder_st|]; reflexivity.
Qed.

Lemma commit_steps (us : list update) (e : Engine) :
  steps (commit us e) = steps e.
Proof.
  unfold commit. destruct (existsb _ us); [rewrite runDecoder_steps|]; reflexivity.
Qed.

Lemma engine_state_commit (us : list update) (e : Engine) :
  engine_state (commit us e)
  = (latent (apply_updates us (st e)), hData (apply_updates us (st e)),
     cData (apply_updates us (st e))).
Proof. unfold engine_state. rewrite commit_st. reflexivity. Qed.

Lemma canDecode_inv (e : Engine) :
  canDecode e ->
  exists dec sc bc, decoderSession (st e) = Some dec
    /\ smallCanvas e = Some sc /\ bigCanvas e = Some bc.
Proof.
  intros [[dec Hd] [[sc Hs] [bc Hb]]]. exists dec, sc, bc. auto.
Qed.

End CommitFacts.

(** ** Reset, edit and the initial state *)

Section Requests.
Import JS Ort Engine.

Lemma reset_engine_state (e : Engine) :
  engine_state (resetLatentAndHidden e) = (zeroLatent, None, None).
Proof. unfold resetLatentAndHidden. rewrite engine_state_commit. reflexivity. Qed.

(** C5. [reset()] leaves the latent at sixteen zeros and the recurrent
    state absent whatever the engine was before; when the decode effect
    can run it makes exactly one new decoder call, on the zero latent
    (while the decoder session is still missing it makes none); and a
    second reset right after the first reaches the same latent and
    recurrent state. *)
Theorem reset_zeroes_and_is_idempotent (e : Engine) :
  let e' := dispatch ClickReset e in
  latent (st e') = replicate 16 (of_Z 0)
  /\ length (latent (st e')) = 16%nat
  /\ hData (st e') = None
  /\ cData (st e') = None
  /\ (canDecode e ->
      exists dec, decoderSession (st e) = Some dec
        /\ decodes e'
           = decodes e ++
               [{| call_id := nextId e;
                   call_feeds := decodeFeeds (replicate 16 (of_Z 0));
                   call_outcome := dec (decodeFeeds (replicate 16 (of_Z 0))) |}])
  /\ (decoderSession (st e) = None -> decodes e' = decodes e)
  /\ engine_state (dispatch ClickReset (dispatch ClickReset e))
     = engine_state (dispatch ClickReset e).
Proof.
  cbn zeta. cbn [dispatch].
  pose proof (reset_engine_state e) as Hs.
  unfold engine_state in Hs. injection Hs as Hl Hh Hc.
  split; [exact Hl|]. split; [rewrite Hl; reflexivity|].
  split; [exact Hh|]. split; [exact Hc|]. split.
  - intros Hready. destruct (canDecode_inv e Hready) as (dec & sc & bc & Hd & Hsc & Hbc).
    exists dec. split; [exact Hd|].
    unfold resetLatentAndHidden, commit. cbn [existsb touches_decode_deps orb].
    erewrite runDecoder_ready; [reflexivity| | |]; cbn; eassumption.
  - split; [|rewrite !reset_engine_state; reflexivity].
    intros Hnone. unfold resetLatentAndHidden, commit.
    cbn [existsb touches_decode_deps orb].
    rewrite runDecoder_unloaded by exact Hnone. reflexivity.
Qed.

Lemma reset_zeroes_and_is_idempotent_witness :
  let e := dispatch (SliderInput 5 7) (Mock.loaded Mock.lstmOnes) in
  latent (st (dispatch ClickReset e)) = replicate 16 (of_Z 0)
  /\ call_feeds <$> decodes (dispatch ClickReset e)
     = (call_feeds <$> decodes e) ++ [decodeFeeds (replicate 16 (of_Z 0))].
Proof.
  cbn zeta.
  assert (Hready : canDecode (dispatch (SliderInput 5 7) (Mock.loaded Mock.lstmOnes))).
  { repeat split; eexists; reflexivity. }
  destruct (reset_zeroes_and_is_idempotent
              (dispatch (SliderInput 5 7) (Mock.loaded Mock.lstmOnes)))
    as (Hl & _ & _ & _ & Hdec & _ & _).
  split; [exact Hl|].
  destruct (Hdec Hready) as (dec & _ & ->).
  rewrite fmap_app. reflexivity.
Defined.

(** A settled decode draws or reports; it never writes the latent or
    the recurrent state, and it makes no call. *)
Lemma decodeSettled_keeps (outcome : result (gmap string Tensor)) (e : Engine) :
  st (decodeSettled outcome e)
  = match decodeSettled_error outcome e with
    | Some msg => apply_update (st e) (setError msg)
    | None => st e
    end
  /\ steps (decodeSettled outcome e) = steps e
  /\ decodes (decodeSettled outcome e) = decodes e.
Proof.
  unfold decodeSettled, decodeSettled_error.
  destruct outcome as [outputs|msg]; [|repeat split; reflexivity].
  destruct (output_data outputs "x_recon") as [d|msg];
    [|repeat split; reflexivity].
  destruct (smallCanvas e) eqn:Hs; [|repeat split; reflexivity].
  cbn [bigCanvas with_smallCanvas].
  destruct (bigCanvas e); split; [reflexivity|split; reflexivity| |];
    try reflexivity; split; reflexivity.
Qed.

Lemma decodeSettled_engine_state (outcome : result (gmap string Tensor)) (e : Engine) :
  engine_state (decodeSettled outcome e) = engine_state e.
Proof.
  unfold engine_state. destruct (decodeSettled_keeps outcome e) as (-> & _ & _).
  destruct (decodeSettled_error outcome e); reflexivity.
Qed.

Lemma passive_keeps_engine_state (ev : event) (e : Engine) :
  is_request ev = false -> steps e = [] ->
  engine_state (dispatch ev e) = engine_state e /\ steps (dispatch ev e) = [].
Proof.
  intros Hev Hsteps. destruct ev as [dec lstm|msg|i k|a| |id|id]; try discriminate;
    cbn [dispatch].
  - destruct (loading (st e)); [|auto].
    rewrite engine_state_commit, commit_steps. auto.
  - destruct (loading (st e)); [|auto].
    rewrite engine_state_commit, commit_steps. auto.
  - destruct (take_call id (decodes e)) as [[c rest]|]; [|auto].
    rewrite decodeSettled_engine_state.
    destruct (decodeSettled_keeps (call_outcome c) (with_decodes rest (nextId e) e))
      as (_ & -> & _). auto.
  - rewrite Hsteps. auto.
Qed.

Lemma passive_run_keeps_engine_state (evs : list event) (e : Engine) :
  forallb (fun ev => negb (is_request ev)) evs = true -> steps e = [] ->
  engine_state (run evs e) = engine_state e.
Proof.
  revert e. induction evs as [|ev evs IH]; intros e Hall Hsteps; [reflexivity|].
  cbn in Hall. apply andb_true_iff in Hall as [Hev Hall].
  apply negb_true_iff in Hev.
  destruct (passive_keeps_engine_state ev e Hev Hsteps) as [Hst Hs'].
  unfold run. cbn [fold_left]. fold (run evs (dispatch ev e)).
  rewrite IH by assumption. exact Hst.
Qed.

(** C10. Until the first edit, step or reset, whatever loads or settles
    in between, the latent is sixteen zeros and the recurrent state is
    absent: the latent and recurrent state [reset()] produces. *)
Theorem initial_state_is_reset_state (evs : list event) :
  forallb (fun ev => negb (is_request ev)) evs = true ->
  let e := run evs mount in
  latent (st e) = replicate 16 (of_Z 0)
  /\ length (latent (st e)) = 16%nat
  /\ hData (st e) = None
  /\ cData (st e) = None
  /\ forall e0, engine_state e = engine_state (dispatch ClickReset e0).
Proof.
  intros Hall. cbn zeta.
  pose proof (passive_run_keeps_engine_state evs mount Hall eq_refl) as Hs.
  assert (Hs' : engine_state (run evs mount) = (zeroLatent, None, None)) by exact Hs.
  unfold engine_state in Hs'. injection Hs' as Hl Hh Hc.
  split; [exact Hl|]. split; [rewrite Hl; reflexivity|].
  split; [exact Hh|]. split; [exact Hc|].
  intros e0. cbn [dispatch]. rewrite reset_engine_state.
  unfold engine_state. rewrite Hl, Hh, Hc. reflexivity.
Qed.

Lemma initial_state_is_reset_state_witness :
  let e := run [ModelsLoaded Mock.decoderFlat Mock.lstmOnes; DecodeSettles 0] mount in
  latent (st e) = replicate 16 (of_Z 0)
  /\ length (latent (st e)) = 16%nat
  /\ hData (st e) = None
  /\ cData (st e) = None
  /\ forall e0, engine_state e = engine_state (dispatch ClickReset e0).
Proof.
  apply (initial_state_is_reset_state
           [ModelsLoaded Mock.decoderFlat Mock.lstmOnes; DecodeSettles 0]).
  reflexivity.
Defined.

(** C7. [editComponent(i, v)] on a latent of sixteen components writes
    [v] at index [i] and nothing else: the other components, the hidden
    and cell state and the dynamics calls in flight stay as they were,
    and when the decode effect can run exactly one decoder call is made,
    on the whole updated vector (none while the decoder session is still
    missing): the tensor [z] of that call holds the updated vector
    rounded to float32, which is the updated vector itself when its
    values are float32 values. On a zero latent,
    [editComponent(3, 2.5)] gives [[0,0,0,2.5,0,...,0]] and a decoder
    call on exactly that vector. *)
Theorem edit_writes_one_component (e : Engine) (i : nat) (v : number) :
  (i < 16)%nat -> length (latent (st e)) = 16%nat ->
  let e' := handleSliderChange i v e in
  latent (st e') = <[i := v]> (latent (st e))
  /\ latent (st e') !! i = Some v
  /\ (forall j, j <> i -> latent (st e') !! j = latent (st e) !! j)
  /\ length (latent (st e')) = 16%nat
  /\ hData (st e') = hData (st e)
  /\ cData (st e') = cData (st e)
  /\ steps e' = steps e
  /\ (canDecode e ->
      exists dec, decoderSession (st e) = Some dec
        /\ decodes e'
           = decodes e ++
               [{| call_id := nextId e;
                   call_feeds := decodeFeeds (latent (st e'));
                   call_outcome := dec (decodeFeeds (latent (st e'))) |}])
  /\ (decoderSession (st e) = None -> decodes e' = decodes e)
  /\ (latent (st e) = replicate 16 (of_Z 0) ->
      let z := of_Z 0 in
      let e3 := handleSliderChange 3 (div (of_Z 5) (of_Z 2)) e in
      latent (st e3)
      = [z; z; z; div (of_Z 5) (of_Z 2); z; z; z; z; z; z; z; z; z; z; z; z]
      /\ hData (st e3) = hData (st e) /\ cData (st e3) = cData (st e)
      /\ dispatch (SliderInput 3 110) e = e3)
  /\ (canDecode e ->
      let zTensor := {| data := fround <$> <[i := v]> (latent (st e));
                        dims := [1; 16]%nat |} in
      exists dec, decoderSession (st e) = Some dec
        /\ decodes e'
           = decodes e ++
               [{| call_id := nextId e; call_feeds := {[ "z" := zTensor ]};
                   call_outcome := dec {[ "z" := zTensor ]} |}])
  /\ (canDecode e -> float32_data (latent (st e)) -> fround v = v ->
      call_feeds <$> decodes e'
      = (call_feeds <$> decodes e)
        ++ [{[ "z" := {| data := <[i := v]> (latent (st e));
                         dims := [1; 16]%nat |} ]}])
  /\ (canDecode e -> latent (st e) = replicate 16 (of_Z 0) ->
      let z := of_Z 0 in
      let e3 := handleSliderChange 3 (div (of_Z 5) (of_Z 2)) e in
      call_feeds <$> decodes e3
      = (call_feeds <$> decodes e)
        ++ [{[ "z" :=
                 {| data := [z; z; z; div (of_Z 5) (of_Z 2); z; z; z; z;
                             z; z; z; z; z; z; z; z];
                    dims := [1; 16]%nat |} ]}]).
Proof.
  intros Hi Hlen. cbn zeta.
  assert (Hst : forall j w,
             st (handleSliderChange j w e)
             = apply_update (st e) (setLatent (fun prev => array_set prev j w))).
  { intros j w. unfold handleSliderChange. rewrite commit_st. reflexivity. }
  assert (Hl : latent (st (handleSliderChange i v e)) = <[i := v]> (latent (st e))).
  { rewrite Hst. cbn [apply_update latent]. unfold array_set.
    destruct (decide _); [reflexivity|lia]. }
  split; [exact Hl|].
  split; [rewrite Hl; apply list_lookup_insert_eq; lia|].
  split; [intros j Hj; rewrite Hl; apply list_lookup_insert_ne; congruence|].
  split; [rewrite Hl, length_insert; exact Hlen|].
  split; [rewrite Hst; reflexivity|].
  split; [rewrite Hst; reflexivity|].
  split; [apply commit_steps|].
  split.
  - intros Hready.
    destruct (canDecode_inv e Hready) as (dec & sc & bc & Hd & Hsc & Hbc).
    exists dec. split; [exact Hd|].
    rewrite Hst. unfold handleSliderChange, commit.
    cbn [existsb touches_decode_deps orb].
    erewrite runDecoder_ready; [reflexivity| | |]; cbn; eassumption.
  - split.
    { intros Hnone. unfold handleSliderChange, commit.
      cbn [existsb touches_decode_deps orb].
      rewrite runDecoder_unloaded by exact Hnone. reflexivity. }
    assert (Hcall : forall j w, (j < 16)%nat -> canDecode e ->
               exists dec, decoderSession (st e) = Some dec
                 /\ decodes (handleSliderChange j w e)
                    = decodes e ++
                        [{| call_id := nextId e;
                            call_feeds :=
                              {[ "z" := {| data := fround <$> <[j := w]> (latent (st e));
                                           dims := [1; 16]%nat |} ]};
                            call_outcome :=
                              dec {[ "z" := {| data := fround <$> <[j := w]> (latent (st e));
                                               dims := [1; 16]%nat |} ]} |}]).
    { intros j w Hj Hready.
      destruct (canDecode_inv e Hready) as (dec & sc & bc & Hd & Hsc & Hbc).
      exists dec. split; [exact Hd|].
      unfold handleSliderChange, commit. cbn [existsb touches_decode_deps orb].
      rewrite (runDecoder_ready _ dec sc bc); [|exact Hd|exact Hsc|exact Hbc].
      cbn [with_st st apply_updates fold_left apply_update latent decodes nextId].
      unfold array_set. destruct (decide _); [|lia].
      rewrite decodeFeeds_fmap by (rewrite length_insert; exact Hlen).
      reflexivity. }
    split; [|split; [|split]].
    + intros Hz.
      split; [rewrite Hst; cbn [apply_update latent]; rewrite Hz; reflexivity|].
      split; [rewrite Hst; reflexivity|].
      split; [rewrite Hst; reflexivity|].
      cbn [dispatch]. rewrite Hlen.
      destruct (decide _); [reflexivity|lia].
    + intros Hready. cbn zeta. exact (Hcall i v Hi Hready).
    + intros Hready Hf Hv. destruct (Hcall i v Hi Hready) as (dec & _ & ->).
      rewrite fmap_app. cbn [fmap list_fmap call_feeds].
      rewrite list_fmap_insert, Hv. unfold float32_data in Hf. rewrite Hf. reflexivity.
    + intros Hready Hz. cbn zeta.
      assert (H3 : (3 < 16)%nat) by lia.
      destruct (Hcall 3%nat (div (of_Z 5) (of_Z 2)) H3 Hready) as (dec & _ & ->).
      rewrite fmap_app, Hz. reflexivity.
Qed.

Lemma edit_writes_one_component_witness :
  let e := Mock.loaded Mock.lstmOnes in
  let e' := handleSliderChange 3 (div (of_Z 5) (of_Z 2)) e in
  let z := of_Z 0 in
  latent (st e') !! 3%nat = Some (div (of_Z 5) (of_Z 2))
  /\ hData (st e') = None
  /\ call_feeds <$> decodes e'
     = [ {[ "z" := {| data := replicate 16 z; dims := [1; 16]%nat |} ]};
         {[ "z" := {| data := [z; z; z; div (of_Z 5) (of_Z 2); z; z; z; z;
                               z; z; z; z; z; z; z; z];
                      dims := [1; 16]%nat |} ]} ].
Proof.
  assert (H3 : (3 < 16)%nat) by lia.
  assert (Hlen : length (latent (st (Mock.loaded Mock.lstmOnes))) = 16%nat)
    by reflexivity.
  assert (Hready : canDecode (Mock.loaded Mock.lstmOnes)).
  { repeat split; eexists; reflexivity. }
  destruct (edit_writes_one_component (Mock.loaded Mock.lstmOnes) 3
              (div (of_Z 5) (of_Z 2)) H3 Hlen)
    as (_ & Hv & _ & _ & Hh & _ & _ & _ & _ & _ & _ & _ & Hdec).
  cbn zeta. split; [exact Hv|]. split; [rewrite Hh; reflexivity|].
  cbn zeta in Hdec. rewrite (Hdec Hready eq_refl). reflexivity.
Defined.

End Requests.

(** ** Calls in flight *)

Section Calls.
Import JS Ort Engine.

Lemma take_call_fresh (id : nat) (cs : list Call) (c : Call) :
  Forall (fun c' => call_id c' < id)%nat cs -> call_id c = id ->
  take_call id (cs ++ [c]) = Some (c, cs).
Proof.
  intros Hcs Hc. induction Hcs as [|c' cs Hlt _ IH]; cbn [take_call app].
  - destruct (decide _); [reflexivity|contradiction].
  - destruct (decide (call_id c' = id)); [lia|]. rewrite IH. reflexivity.
Qed.

Lemma take_call_Forall (P : Call -> Prop) (id : nat) (cs rest : list Call) (c : Call) :
  take_call id cs = Some (c, rest) -> Forall P cs -> P c /\ Forall P rest.
Proof.
  revert rest. induction cs as [|c' cs IH]; intros rest Ht Hall; [discriminate|].
  cbn [take_call] in Ht. inversion Hall as [|? ? Hc' Hcs]; subst.
  destruct (decide (call_id c' = id)).
  - injection Ht as <- <-. auto.
  - destruct (take_call id cs) as [[c0 r0]|]; [|discriminate].
    injection Ht as <- <-. destruct (IH r0 eq_refl Hcs). auto.
Qed.

Lemma Forall_lt_S (cs : list Call) (n : nat) :
  Forall (fun c => call_id c < n)%nat cs ->
  Forall (fun c => call_id c < S n)%nat cs.
Proof. intros H. eapply Forall_impl; [exact H|]. intros c Hc. cbn in Hc |- *. lia. Qed.

Lemma runDecoder_well_formed (e : Engine) :
  well_formed e -> well_formed (runDecoder e).
Proof.
  intros [Hd Hs]. unfold runDecoder.
  destruct (decoderSession (st e)), (smallCanvas e), (bigCanvas e);
    try (split; assumption).
  rewrite newTensor_latent. split; cbn.
  - apply Forall_app. split; [apply Forall_lt_S, Hd|].
    constructor; [cbn; lia|constructor].
  - apply Forall_lt_S, Hs.
Qed.

Lemma commit_well_formed (us : list update) (e : Engine) :
  well_formed e -> well_formed (commit us e).
Proof.
  intros H. unfold commit.
  destruct (existsb _ us); [apply runDecoder_well_formed|]; exact H.
Qed.

Lemma decodeSettled_well_formed (outcome : result (gmap string Tensor)) (e : Engine) :
  well_formed e -> well_formed (decodeSettled outcome e).
Proof.
  intros H. unfold decodeSettled.
  destruct outcome as [outputs|msg]; [|apply commit_well_formed, H].
  destruct (output_data outputs "x_recon"); [|apply commit_well_formed, H].
  destruct (smallCanvas e); [|apply commit_well_formed, H].
  cbn [bigCanvas with_smallCanvas].
  destruct (bigCanvas e); [exact H|apply commit_well_formed, H].
Qed.

Lemma dispatch_well_formed (ev : event) (e : Engine) :
  well_formed e -> well_formed (dispatch ev e).
Proof.
  intros H. destruct ev as [dec lstm|msg|i k|a| |id|id]; cbn [dispatch].
  - destruct (loading (st e)); [apply commit_well_formed|]; exact H.
  - destruct (loading (st e)); [apply commit_well_formed|]; exact H.
  - destruct (decide _); [apply commit_well_formed|]; exact H.
  - destruct (disabled (st e)); [exact H|]. unfold stepWithAction.
    destruct (lstmSession (st e)); [|exact H].
    destruct (stepFeeds _ _); [|apply commit_well_formed, H].
    destruct H as [Hd Hs]. split; cbn.
    + apply Forall_lt_S, Hd.
    + apply Forall_app. split; [apply Forall_lt_S, Hs|].
      constructor; [cbn; lia|constructor].
  - apply commit_well_formed, H.
  - destruct (take_call id (decodes e)) as [[c rest]|] eqn:Ht; [|exact H].
    apply decodeSettled_well_formed. destruct H as [Hd Hs].
    split; cbn; [|exact Hs]. eapply take_call_Forall in Ht as [_ Hr]; eauto.
  - destruct (take_call id (steps e)) as [[c rest]|] eqn:Ht; [|exact H].
    apply commit_well_formed. destruct H as [Hd Hs].
    split; cbn; [exact Hd|]. eapply take_call_Forall in Ht as [_ Hr]; eauto.
Qed.

Lemma mount_well_formed : well_formed mount.
Proof. split; constructor. Qed.

(** Every engine the event loop can reach from the mount is well
    formed. *)
Lemma run_well_formed (evs : list event) (e : Engine) :
  well_formed e -> well_formed (run evs e).
Proof.
  revert e. induction evs as [|ev evs IH]; intros e H; [exact H|].
  apply (IH (dispatch ev e)), dispatch_well_formed, H.
Qed.

End Calls.

(** ** The dynamics step *)

Section Step.
Import JS Ort Engine.

Lemma newTensor_ok (d : list number) (ds : list nat) :
  length d = size ds -> newTensor d ds = Ok {| data := d; dims := ds |}.
Proof.
  intros H. unfold newTensor. destruct (decide _); [reflexivity|contradiction].
Qed.

Lemma newTensor_inv (d : list number) (ds : list nat) (t : Tensor) :
  newTensor d ds = Ok t -> length d = size ds /\ t = {| data := d; dims := ds |}.
Proof.
  unfold newTensor. destruct (decide _); [|discriminate].
  intros [= <-]. auto.
Qed.

Lemma hidden_size : size [NUM_LAYERS; 1%nat; HIDDEN_DIM] = 256%nat.
Proof. reflexivity. Qed.

(** The tensors of a step can be built exactly when the two hidden
    buffers have the size the model expects. *)
Lemma stepFeeds_ok (actionVal : number) (s : State) (hArr cArr : list number) :
  hidden_buffers s = (hArr, cArr) ->
  length hArr = 256%nat -> length cArr = 256%nat ->
  stepFeeds actionVal s = Ok (stepCallFeeds (latent s) actionVal hArr cArr).
Proof.
  intros Hb Hh Hc. unfold stepFeeds.
  rewrite newTensor_latent. cbn [bind].
  rewrite (newTensor_ok [fround actionVal]) by reflexivity. cbn [bind].
  rewrite Hb.
  rewrite (newTensor_ok hArr) by (rewrite hidden_size; exact Hh). cbn [bind].
  rewrite (newTensor_ok cArr) by (rewrite hidden_size; exact Hc). cbn [bind].
  reflexivity.
Qed.

Lemma stepFeeds_inv (actionVal : number) (s : State) (feeds : gmap string Tensor) :
  stepFeeds actionVal s = Ok feeds ->
  length (fst (hidden_buffers s)) = 256%nat
  /\ length (snd (hidden_buffers s)) = 256%nat
  /\ feeds = stepCallFeeds (latent s) actionVal
               (fst (hidden_buffers s)) (snd (hidden_buffers s)).
Proof.
  unfold stepFeeds. rewrite newTensor_latent. cbn [bind].
  rewrite (newTensor_ok [fround actionVal]) by reflexivity. cbn [bind].
  destruct (hidden_buffers s) as [hArr cArr]. cbn [fst snd].
  destruct (newTensor hArr _) as [th|] eqn:Hh; [|discriminate].
  destruct (newTensor cArr _) as [tc|] eqn:Hc; [|discriminate].
  cbn [bind]. intros [= <-].
  apply newTensor_inv in Hh as [Hh ->]. apply newTensor_inv in Hc as [Hc ->].
  rewrite hidden_size in Hh, Hc. auto.
Qed.

(** With the recurrent state absent the buffers are fresh zero arrays. *)
Lemma hidden_buffers_absent (s : State) :
  hData s = None \/ cData s = None ->
  hidden_buffers s = (zeros 256, zeros 256).
Proof.
  intros [H|H]; unfold hidden_buffers; rewrite H; [reflexivity|].
  destruct (hData s); reflexivity.
Qed.

Lemma zeros_length (n : nat) : length (zeros n) = n.
Proof. apply length_replicate. Qed.

Lemma action_value_float32 (a : ActionCode) : fround (action_value a) = action_value a.
Proof. destruct a; reflexivity. Qed.

Lemma stepWithAction_issues (actionVal : number) (e : Engine) (lstm : Session)
  (feeds : gmap string Tensor) :
  lstmSession (st e) = Some lstm -> stepFeeds actionVal (st e) = Ok feeds ->
  stepWithAction actionVal e
  = with_steps
      (steps e ++
         [{| call_id := nextId e; call_feeds := feeds; call_outcome := lstm feeds |}])
      (S (nextId e)) e.
Proof. intros Hl Hf. unfold stepWithAction. rewrite Hl, Hf. reflexivity. Qed.

Lemma stepSettled_complete (outputs : gmap string Tensor) (nl h1 c1 : Tensor) :
  outputs !! "next_latent" = Some nl -> outputs !! "h1" = Some h1 ->
  outputs !! "c1" = Some c1 ->
  stepSettled (Ok outputs)
  = [setLatent (fun _ => data nl); setHData (Some (fround <$> data h1));
     setCData (Some (fround <$> data c1))].
Proof.
  intros Hn Hh Hc. unfold stepSettled, output_data. rewrite Hn, Hh, Hc.
  reflexivity.
Qed.

(** Issuing a step, whether the tensors can be built or not, writes
    neither the latent nor the recurrent state. *)
Lemma click_keeps_engine_state (a : ActionCode) (e : Engine) :
  engine_state (dispatch (ClickAction a) e) = engine_state e.
Proof.
  cbn [dispatch]. destruct (disabled (st e)); [reflexivity|].
  unfold stepWithAction. destruct (lstmSession (st e)); [|reflexivity].
  destruct (stepFeeds _ _); [reflexivity|].
  rewrite engine_state_commit. reflexivity.
Qed.

(** Rendering after each of the three setter calls of a successful step
    reaches the same engine as rendering once after all of them. *)
Lemma commit_each_step (nl : list number) (h c : option (list number)) (e : Engine) :
  commit_each [setLatent (fun _ => nl); setHData h; setCData c] e
  = commit [setLatent (fun _ => nl); setHData h; setCData c] e.
Proof.
  unfold commit_each, commit, runDecoder.
  cbn [fold_left existsb touches_decode_deps orb with_st st apply_updates
       apply_update decoderSession latent smallCanvas bigCanvas].
  destruct (decoderSession (st e)), (smallCanvas e), (bigCanvas e);
    rewrite ?newTensor_latent; reflexivity.
Qed.

End Step.

Section StepClaims.
Import JS Ort Engine.

Lemma step_settles (e : Engine) (id : nat) (c : Call) (rest : list Call) :
  take_call id (steps e) = Some (c, rest) ->
  dispatch (StepSettles id) e
  = commit (stepSettled (call_outcome c)) (with_steps rest (nextId e) e).
Proof. intros Ht. cbn [dispatch]. rewrite Ht. reflexivity. Qed.

(** A rejected dynamics call only sets the error cell. *)
Lemma step_rejected (e : Engine) (id : nat) (c : Call) (rest : list Call) (msg : string) :
  take_call id (steps e) = Some (c, rest) -> call_outcome c = Throw msg ->
  dispatch (StepSettles id) e
  = with_st (apply_update (st e) (setError msg)) (with_steps rest (nextId e) e).
Proof.
  intros Ht Hc. rewrite (step_settles e id c rest Ht), Hc. reflexivity.
Qed.

(** A click on an enabled button, with tensors that can be built, puts
    one call in flight; settling it right away finds that call. *)
Lemma click_then_settle (e : Engine) (a : ActionCode) (lstm : Session)
  (feeds : gmap string Tensor) :
  well_formed e -> disabled (st e) = false -> lstmSession (st e) = Some lstm ->
  stepFeeds (action_value a) (st e) = Ok feeds ->
  let e1 := dispatch (ClickAction a) e in
  e1 = with_steps
         (steps e ++
            [{| call_id := nextId e; call_feeds := feeds; call_outcome := lstm feeds |}])
         (S (nextId e)) e
  /\ dispatch (StepSettles (nextId e)) e1
     = commit (stepSettled (lstm feeds)) (with_steps (steps e) (S (nextId e)) e).
Proof.
  intros [_ Hwf] Hen Hl Hf. cbn zeta.
  assert (H1 : dispatch (ClickAction a) e
               = with_steps
                   (steps e ++
                      [{| call_id := nextId e; call_feeds := feeds;
                          call_outcome := lstm feeds |}])
                   (S (nextId e)) e).
  { cbn [dispatch]. rewrite Hen. apply stepWithAction_issues; assumption. }
  split; [exact H1|]. rewrite H1.
  rewrite (step_settles _ (nextId e)
             {| call_id := nextId e; call_feeds := feeds; call_outcome := lstm feeds |}
             (steps e)).
  - reflexivity.
  - cbn [steps with_steps]. apply take_call_fresh; [exact Hwf|reflexivity].
Qed.

(** C3. When the dynamics call of a step is rejected, or its tensors
    cannot be built, latent, hidden and cell state are what they were
    before the click, the message is in the error cell, and the guards of
    the three handlers are as before: sessions and loading flag are
    untouched, the buttons stay enabled, a next edit, reset or step is
    handled as usual. Whatever else happened while the call was in
    flight, its rejection only sets the error cell. *)
Theorem failed_step_leaves_state (e : Engine) (a : ActionCode) (lstm : Session)
  (msg : string) :
  well_formed e -> disabled (st e) = false -> lstmSession (st e) = Some lstm ->
  let e1 := dispatch (ClickAction a) e in
  (* a rejection that arrives later, in any engine *)
  (forall (e' : Engine) (id : nat) (c : Call) (rest : list Call),
     take_call id (steps e') = Some (c, rest) -> call_outcome c = Throw msg ->
     dispatch (StepSettles id) e'
     = with_st (apply_update (st e') (setError msg)) (with_steps rest (nextId e') e'))
  /\
  (* the tensors cannot be built: reported at once *)
  (stepFeeds (action_value a) (st e) = Throw msg ->
   e1 = with_st (apply_update (st e) (setError msg)) e)
  /\
  (* the call is made and rejected *)
  (forall feeds, stepFeeds (action_value a) (st e) = Ok feeds ->
   lstm feeds = Throw msg ->
   let e2 := dispatch (StepSettles (nextId e)) e1 in
   engine_state e1 = engine_state e
   /\ e2 = with_st (apply_update (st e) (setError msg))
             (with_steps (steps e) (S (nextId e)) e)
   /\ latent (st e2) = latent (st e)
   /\ hData (st e2) = hData (st e)
   /\ cData (st e2) = cData (st e)
   /\ error (st e2) = Some msg
   /\ disabled (st e2) = false
   /\ (forall i k, (i < length (latent (st e)))%nat ->
         latent (st (dispatch (SliderInput i k) e2))
         = <[i := sliderValue k]> (latent (st e)))
   /\ engine_state (dispatch ClickReset e2) = (zeroLatent, None, None)
   /\ (forall a', exists feeds',
         stepFeeds (action_value a') (st e2) = Ok feeds'
         /\ steps (dispatch (ClickAction a') e2)
            = steps e ++
                [{| call_id := S (nextId e); call_feeds := feeds';
                    call_outcome := lstm feeds' |}])).
Proof.
  intros Hwf Hen Hl. cbn zeta. split; [|split].
  - intros e' id c rest Ht Hc. exact (step_rejected e' id c rest msg Ht Hc).
  - intros Hf. cbn [dispatch]. rewrite Hen. unfold stepWithAction.
    rewrite Hl, Hf. reflexivity.
  - intros feeds Hf Hrej.
    destruct (click_then_settle e a lstm feeds Hwf Hen Hl Hf) as [H1 H2].
    cbn zeta in H1, H2. rewrite Hrej in H2.
    assert (He2 : dispatch (StepSettles (nextId e)) (dispatch (ClickAction a) e)
                  = with_st (apply_update (st e) (setError msg))
                      (with_steps (steps e) (S (nextId e)) e))
      by (rewrite H2; reflexivity).
    split; [apply click_keeps_engine_state|].
    split; [exact He2|]. rewrite He2.
    split; [reflexivity|]. split; [reflexivity|]. split; [reflexivity|].
    split; [reflexivity|]. split; [exact Hen|].
    split; [|split].
    + intros i k Hi. cbn [dispatch with_st st apply_update latent].
      destruct (decide _); [|lia].
      unfold handleSliderChange. rewrite commit_st.
      cbn [apply_updates fold_left apply_update latent with_st st].
      unfold array_set. destruct (decide _); [reflexivity|lia].
    + cbn [dispatch]. apply reset_engine_state.
    + intros a'.
      destruct (stepFeeds_inv _ _ _ Hf) as (Hh & Hc & _).
      destruct (hidden_buffers (st e)) as [hArr cArr] eqn:Hb. cbn [fst snd] in Hh, Hc.
      exists (stepCallFeeds (latent (st e)) (action_value a') hArr cArr).
      set (E2 := with_st (apply_update (st e) (setError msg))
                   (with_steps (steps e) (S (nextId e)) e)).
      assert (Hf' : stepFeeds (action_value a') (st E2)
                    = Ok (stepCallFeeds (latent (st e)) (action_value a') hArr cArr)).
      { exact (stepFeeds_ok (action_value a')
                 (apply_update (st e) (setError msg)) hArr cArr Hb Hh Hc). }
      assert (Hen2 : disabled (st E2) = false) by exact Hen.
      assert (Hl2 : lstmSession (st E2) = Some lstm) by exact Hl.
      split; [exact Hf'|].
      cbn [dispatch]. rewrite Hen2.
      rewrite (stepWithAction_issues _ E2 lstm _ Hl2 Hf'). reflexivity.
Qed.

Lemma loaded_ready (lstm : Session) :
  well_formed (Mock.loaded lstm)
  /\ disabled (st (Mock.loaded lstm)) = false
  /\ lstmSession (st (Mock.loaded lstm)) = Some lstm
  /\ canDecode (Mock.loaded lstm)
  /\ nextId (Mock.loaded lstm) = 1%nat
  /\ engine_state (Mock.loaded lstm) = (zeroLatent, None, None).
Proof.
  split; [apply dispatch_well_formed, mount_well_formed|].
  split; [reflexivity|]. split; [reflexivity|].
  split; [repeat split; eexists; reflexivity|].
  split; reflexivity.
Defined.

Lemma cold_feeds (actionVal : number) (s : State) :
  hData s = None ->
  stepFeeds actionVal s
  = Ok (stepCallFeeds (latent s) actionVal (zeros 256) (zeros 256)).
Proof.
  intros Hh. apply stepFeeds_ok.
  - apply hidden_buffers_absent. left. exact Hh.
  - apply zeros_length.
  - apply zeros_length.
Defined.

Lemma failed_step_leaves_state_witness :
  let e := Mock.loaded Mock.lstmFails in
  let e2 := dispatch (StepSettles 1) (dispatch (ClickAction LEFT) e) in
  latent (st e2) = latent (st e)
  /\ hData (st e2) = hData (st e)
  /\ cData (st e2) = cData (st e)
  /\ error (st e2) = Some "Error: inference failed"
  /\ disabled (st e2) = false.
Proof.
  cbn zeta.
  destruct (loaded_ready Mock.lstmFails) as (Hwf & Hen & Hl & _ & Hid & _).
  destruct (failed_step_leaves_state (Mock.loaded Mock.lstmFails) LEFT
              Mock.lstmFails "Error: inference failed" Hwf Hen Hl) as (_ & _ & H).
  specialize (H _ (cold_feeds (action_value LEFT)
                     (st (Mock.loaded Mock.lstmFails)) eq_refl) eq_refl).
  cbn zeta in H. rewrite Hid in H.
  destruct H as (_ & _ & H1 & H2 & H3 & H4 & H5 & _).
  split; [exact H1|]. split; [exact H2|]. split; [exact H3|].
  split; [exact H4|exact H5].
Defined.

(** C4. A step on an absent recurrent state builds the very tensors a
    step on zero-filled [h] and [c] of 2*1*128 entries builds, so the
    same call is put in flight and, once it has answered with its three
    outputs, the same latent and recurrent state are stored. Building
    them never fails and nothing is reported. *)
Theorem cold_start_is_zero_state (e : Engine) (a : ActionCode) :
  hData (st e) = None -> cData (st e) = None ->
  let e0 := with_hidden (Some (zeros 256)) (Some (zeros 256)) e in
  stepFeeds (action_value a) (st e)
  = Ok (stepCallFeeds (latent (st e)) (action_value a) (zeros 256) (zeros 256))
  /\ stepFeeds (action_value a) (st e0) = stepFeeds (action_value a) (st e)
  /\ steps (dispatch (ClickAction a) e0) = steps (dispatch (ClickAction a) e)
  /\ error (st (dispatch (ClickAction a) e)) = error (st e)
  /\ (forall lstm outputs nl h1 c1,
        well_formed e -> disabled (st e) = false ->
        lstmSession (st e) = Some lstm ->
        lstm (stepCallFeeds (latent (st e)) (action_value a) (zeros 256) (zeros 256))
        = Ok outputs ->
        outputs !! "next_latent" = Some nl -> outputs !! "h1" = Some h1 ->
        outputs !! "c1" = Some c1 ->
        engine_state (run [ClickAction a; StepSettles (nextId e)] e0)
        = engine_state (run [ClickAction a; StepSettles (nextId e)] e)
        /\ engine_state (run [ClickAction a; StepSettles (nextId e)] e)
           = (data nl, Some (fround <$> data h1), Some (fround <$> data c1))).
Proof.
  intros Hh Hc. cbn zeta.
  set (e0 := with_hidden (Some (zeros 256)) (Some (zeros 256)) e).
  pose proof (cold_feeds (action_value a) (st e) Hh) as Hf.
  assert (Hf0 : stepFeeds (action_value a) (st e0)
                = Ok (stepCallFeeds (latent (st e)) (action_value a)
                        (zeros 256) (zeros 256))).
  { exact (stepFeeds_ok (action_value a) (st e0) (zeros 256) (zeros 256)
             eq_refl (zeros_length 256) (zeros_length 256)). }
  split; [exact Hf|]. split; [rewrite Hf0, Hf; reflexivity|].
  split; [|split].
  - cbn [dispatch].
    change (disabled (st e0)) with (disabled (st e)).
    destruct (disabled (st e)); [reflexivity|].
    unfold stepWithAction.
    change (lstmSession (st e0)) with (lstmSession (st e)).
    destruct (lstmSession (st e)); [|reflexivity].
    rewrite Hf0, Hf. reflexivity.
  - cbn [dispatch]. destruct (disabled (st e)); [reflexivity|].
    unfold stepWithAction. destruct (lstmSession (st e)); [|reflexivity].
    rewrite Hf. reflexivity.
  - intros lstm outputs nl h1 c1 Hwf Hen Hl Hout Hnl Hh1 Hc1.
    assert (Hwf0 : well_formed e0) by exact Hwf.
    destruct (click_then_settle e a lstm _ Hwf Hen Hl Hf) as [_ H2].
    destruct (click_then_settle e0 a lstm _ Hwf0 Hen Hl Hf0) as [_ H20].
    cbn zeta in H2, H20.
    unfold run. cbn [fold_left].
    change (nextId e0) with (nextId e) in H20.
    rewrite H2, H20, Hout, (stepSettled_complete outputs nl h1 c1 Hnl Hh1 Hc1).
    rewrite !engine_state_commit. split; reflexivity.
Qed.

Lemma cold_start_is_zero_state_witness :
  let e := Mock.loaded Mock.lstmOnes in
  let e0 := with_hidden (Some (zeros 256)) (Some (zeros 256)) e in
  steps (dispatch (ClickAction RIGHT) e0) = steps (dispatch (ClickAction RIGHT) e)
  /\ engine_state (run [ClickAction RIGHT; StepSettles 1] e0)
     = engine_state (run [ClickAction RIGHT; StepSettles 1] e).
Proof.
  cbn zeta.
  destruct (loaded_ready Mock.lstmOnes) as (Hwf & Hen & Hl & _ & Hid & _).
  destruct (cold_start_is_zero_state (Mock.loaded Mock.lstmOnes) RIGHT eq_refl eq_refl)
    as (_ & _ & Hsteps & _ & H).
  split; [exact Hsteps|].
  destruct (H Mock.lstmOnes _ _ _ _ Hwf Hen Hl eq_refl eq_refl eq_refl eq_refl)
    as [Heq _].
  rewrite Hid in Heq. exact Heq.
Defined.

(** The stores of a step that answered with its three outputs. *)
Lemma step_answered (e : Engine) (id : nat) (c : Call) (rest : list Call)
  (outputs : gmap string Tensor) (nl h1 c1 : Tensor) :
  take_call id (steps e) = Some (c, rest) -> call_outcome c = Ok outputs ->
  outputs !! "next_latent" = Some nl -> outputs !! "h1" = Some h1 ->
  outputs !! "c1" = Some c1 ->
  dispatch (StepSettles id) e
  = commit [setLatent (fun _ => data nl); setHData (Some (fround <$> data h1));
            setCData (Some (fround <$> data c1))]
      (with_steps rest (nextId e) e).
Proof.
  intros Ht Hc Hn Hh1 Hc1.
  rewrite (step_settles e id c rest Ht), Hc,
    (stepSettled_complete outputs nl h1 c1 Hn Hh1 Hc1).
  reflexivity.
Qed.

Lemma advance_general (e : Engine) (a : ActionCode) (lstm : Session)
  (hArr cArr : list number) (outputs : gmap string Tensor) (nl h1 c1 : Tensor) :
  well_formed e -> disabled (st e) = false -> lstmSession (st e) = Some lstm ->
  hidden_buffers (st e) = (hArr, cArr) ->
  length hArr = 256%nat -> length cArr = 256%nat ->
  let feeds := stepCallFeeds (latent (st e)) (action_value a) hArr cArr in
  lstm feeds = Ok outputs ->
  outputs !! "next_latent" = Some nl -> outputs !! "h1" = Some h1 ->
  outputs !! "c1" = Some c1 ->
  float32_data (data h1) -> float32_data (data c1) ->
  let e1 := dispatch (ClickAction a) e in
  let e2 := dispatch (StepSettles (nextId e)) e1 in
  steps e1
  = steps e ++ [{| call_id := nextId e; call_feeds := feeds; call_outcome := lstm feeds |}]
  /\ feeds !! "latent"
     = Some {| data := toFloat32Array 16 (latent (st e)); dims := [1; 16]%nat |}
  /\ feeds !! "action" = Some {| data := [action_value a]; dims := [1; 1]%nat |}
  /\ (action_value a = of_Z 0 \/ action_value a = of_Z 1)
  /\ feeds !! "h0" = Some {| data := hArr; dims := [2; 1; 128]%nat |}
  /\ feeds !! "c0" = Some {| data := cArr; dims := [2; 1; 128]%nat |}
  /\ (hData (st e) = None \/ cData (st e) = None ->
      hArr = replicate 256 (of_Z 0) /\ cArr = replicate 256 (of_Z 0))
  /\ (forall h c, hData (st e) = Some h -> cData (st e) = Some c ->
      hArr = h /\ cArr = c)
  /\ engine_state e1 = engine_state e
  /\ latent (st e2) = data nl
  /\ hData (st e2) = Some (data h1)
  /\ cData (st e2) = Some (data c1)
  /\ steps e2 = steps e
  /\ (canDecode e ->
      exists dec, decoderSession (st e) = Some dec
        /\ decodes e2
           = decodes e ++
               [{| call_id := S (nextId e); call_feeds := decodeFeeds (data nl);
                   call_outcome := dec (decodeFeeds (data nl)) |}]).
Proof.
  intros Hwf Hen Hl Hb Hlh Hlc feeds Hout Hnl Hh1 Hc1 Hfh Hfc. cbn zeta.
  pose proof (stepFeeds_ok (action_value a) (st e) hArr cArr Hb Hlh Hlc) as Hf.
  destruct (click_then_settle e a lstm _ Hwf Hen Hl Hf) as [H1 H2].
  cbn zeta in H1, H2. fold feeds in H1, H2.
  rewrite Hout, (stepSettled_complete outputs nl h1 c1 Hnl Hh1 Hc1) in H2.
  unfold float32_data in Hfh, Hfc. rewrite Hfh, Hfc in H2.
  split; [rewrite H1; reflexivity|].
  split; [reflexivity|].
  split; [unfold feeds, stepCallFeeds; rewrite action_value_float32; reflexivity|].
  split; [destruct a; auto|].
  split; [reflexivity|]. split; [reflexivity|].
  split; [intros Habs; rewrite (hidden_buffers_absent _ Habs) in Hb;
          injection Hb as <- <-; split; reflexivity|].
  split; [intros h c Hh Hc; unfold hidden_buffers in Hb; rewrite Hh, Hc in Hb;
          injection Hb as <- <-; split; reflexivity|].
  split; [apply click_keeps_engine_state|].
  rewrite H2.
  split; [rewrite commit_st; reflexivity|].
  split; [rewrite commit_st; reflexivity|].
  split; [rewrite commit_st; reflexivity|].
  split; [rewrite commit_steps; reflexivity|].
  intros Hready.
  destruct (canDecode_inv e Hready) as (dec & sc & bc & Hd & Hsc & Hbc).
  exists dec. split; [exact Hd|].
  unfold commit. cbn [existsb touches_decode_deps orb].
  erewrite runDecoder_ready; [reflexivity| | |]; cbn; eassumption.
Qed.

Lemma ones_float32 : float32_data (Mock.ones 256).
Proof. vm_compute. reflexivity. Qed.

(** What the model is fed and what is decoded afterwards, element by
    element. *)
Lemma advance_literal (e : Engine) (a : ActionCode) (lstm : Session)
  (hArr cArr : list number) (outputs : gmap string Tensor) (nl h1 c1 : Tensor) :
  well_formed e -> disabled (st e) = false -> lstmSession (st e) = Some lstm ->
  hidden_buffers (st e) = (hArr, cArr) ->
  length hArr = 256%nat -> length cArr = 256%nat ->
  let feeds := stepCallFeeds (latent (st e)) (action_value a) hArr cArr in
  lstm feeds = Ok outputs ->
  outputs !! "next_latent" = Some nl -> outputs !! "h1" = Some h1 ->
  outputs !! "c1" = Some c1 ->
  float32_data (data h1) -> float32_data (data c1) ->
  let e1 := dispatch (ClickAction a) e in
  let e2 := dispatch (StepSettles (nextId e)) e1 in
  (forall i v, latent (st e) !! i = Some v -> (i < 16)%nat ->
     exists t, feeds !! "latent" = Some t /\ data t !! i = Some (fround v))
  /\ (length (latent (st e)) = 16%nat ->
      call_feeds <$> steps e1
      = (call_feeds <$> steps e)
        ++ [<["latent" := {| data := fround <$> latent (st e); dims := [1; 16]%nat |}]>
            (<["action" := {| data := [action_value a]; dims := [1; 1]%nat |}]>
            (<["h0" := {| data := hArr; dims := [2; 1; 128]%nat |}]>
            ({[ "c0" := {| data := cArr; dims := [2; 1; 128]%nat |} ]}
               : gmap string Tensor)))])
  /\ (length (latent (st e)) = 16%nat -> float32_data (latent (st e)) ->
      feeds !! "latent" = Some {| data := latent (st e); dims := [1; 16]%nat |})
  /\ (canDecode e -> length (data nl) = 16%nat ->
      let zTensor := {| data := fround <$> data nl; dims := [1; 16]%nat |} in
      exists dec, decoderSession (st e) = Some dec
        /\ decodes e2
           = decodes e ++
               [{| call_id := S (nextId e); call_feeds := {[ "z" := zTensor ]};
                   call_outcome := dec {[ "z" := zTensor ]} |}])
  /\ (canDecode e -> length (data nl) = 16%nat -> float32_data (data nl) ->
      call_feeds <$> decodes e2
      = (call_feeds <$> decodes e)
        ++ [{[ "z" := {| data := data nl; dims := [1; 16]%nat |} ]}]).
Proof.
  intros Hwf Hen Hl Hb Hlh Hlc feeds Hout Hnl Hh1 Hc1 Hfh Hfc. cbn zeta.
  destruct (advance_general e a lstm hArr cArr outputs nl h1 c1 Hwf Hen Hl Hb Hlh Hlc
              Hout Hnl Hh1 Hc1 Hfh Hfc)
    as (H1 & Hlat & _ & _ & _ & _ & _ & _ & _ & _ & _ & _ & _ & Hdec).
  fold feeds in H1, Hlat.
  split; [|split; [|split; [|split]]].
  - intros i v Hv Hi. eexists. split; [exact Hlat|]. cbn [data].
    rewrite toFloat32Array_lookup by exact Hi. unfold get. rewrite Hv. reflexivity.
  - intros Hlen. rewrite H1, fmap_app. cbn [fmap list_fmap call_feeds].
    unfold feeds. rewrite stepCallFeeds_fmap by exact Hlen.
    rewrite action_value_float32. reflexivity.
  - intros Hlen Hf. rewrite Hlat, toFloat32Array_exact by assumption. reflexivity.
  - intros Hready Hlen. cbn zeta. destruct (Hdec Hready) as (dec & Hd & ->).
    exists dec. split; [exact Hd|]. rewrite decodeFeeds_fmap by exact Hlen. reflexivity.
  - intros Hready Hlen Hf. destruct (Hdec Hready) as (dec & _ & ->).
    rewrite fmap_app. cbn [fmap list_fmap call_feeds].
    rewrite decodeFeeds_fmap by exact Hlen. unfold float32_data in Hf. rewrite Hf.
    reflexivity.
Qed.

Lemma unitLatent_float32 : float32_data Mock.unitLatent.
Proof. vm_compute. reflexivity. Qed.

(** The engine after one answered step on the mocked model. *)
Lemma stepped_once_ready :
  let s2 := dispatch (StepSettles 1)
              (dispatch (ClickAction LEFT) (Mock.loaded Mock.lstmOnes)) in
  well_formed s2 /\ disabled (st s2) = false
  /\ lstmSession (st s2) = Some Mock.lstmOnes
  /\ hidden_buffers (st s2) = (Mock.ones 256, Mock.ones 256)
  /\ latent (st s2) = Mock.unitLatent
  /\ nextId s2 = 3%nat /\ steps s2 = [].
Proof.
  cbn zeta.
  split; [apply dispatch_well_formed, dispatch_well_formed, dispatch_well_formed,
          mount_well_formed|].
  split; [reflexivity|]. split; [reflexivity|].
  split; [vm_compute; reflexivity|].
  split; [reflexivity|]. split; reflexivity.
Qed.

(** C6. [advance(action)] calls the dynamics model with the current
    latent as a float32 tensor of shape [1,16] (each component rounded
    to float32, hence the latent itself when it holds float32 values),
    the action 0.0 or 1.0 in a tensor of shape [1,1], and the current
    hidden and cell buffers, or zeros when absent, in tensors of shape
    [2,1,128]; when the model has answered, the latent is its
    [next_latent], the hidden and cell state are its [h1] and [c1], and
    one decode of the new latent is issued. From the zero latent and an
    absent state, [advance(LEFT)] on a model that answers [[1,0,...,0]]
    and ones feeds the model zeros and the action 0.0, ends with exactly
    that latent and the ones tensors, and decodes exactly that latent; a
    second advance then feeds the model that latent and the ones. *)
Theorem advance_feeds_model_and_stores_outputs :
  (let s0 := Mock.loaded Mock.lstmOnes in
   let s1 := dispatch (ClickAction LEFT) s0 in
   let s2 := dispatch (StepSettles 1) s1 in
   let s3 := dispatch (ClickAction RIGHT) s2 in
   let zero := of_Z 0 in
   let one := of_Z 1 in
   engine_state s0 = (replicate 16 zero, None, None)
   /\ call_feeds <$> steps s1
      = [stepCallFeeds (replicate 16 (of_Z 0)) (of_Z 0)
           (replicate 256 (of_Z 0)) (replicate 256 (of_Z 0))]
   /\ latent (st s2) = one :: replicate 15 zero
   /\ hData (st s2) = Some (replicate 256 one)
   /\ cData (st s2) = Some (replicate 256 one)
   /\ call_feeds <$> decodes s2
      = [decodeFeeds (replicate 16 (of_Z 0));
         decodeFeeds (of_Z 1 :: replicate 15 (of_Z 0))]
   /\ call_feeds <$> steps s1
      = [<["latent" := {| data := replicate 16 zero; dims := [1; 16]%nat |}]>
         (<["action" := {| data := [zero]; dims := [1; 1]%nat |}]>
         (<["h0" := {| data := replicate 256 zero; dims := [2; 1; 128]%nat |}]>
         ({[ "c0" := {| data := replicate 256 zero; dims := [2; 1; 128]%nat |} ]}
            : gmap string Tensor)))]
   /\ call_feeds <$> decodes s2
      = [ {[ "z" := {| data := replicate 16 zero; dims := [1; 16]%nat |} ]};
          {[ "z" := {| data := one :: replicate 15 zero; dims := [1; 16]%nat |} ]} ]
   /\ call_feeds <$> steps s3
      = [<["latent" := {| data := one :: replicate 15 zero; dims := [1; 16]%nat |}]>
         (<["action" := {| data := [one]; dims := [1; 1]%nat |}]>
         (<["h0" := {| data := replicate 256 one; dims := [2; 1; 128]%nat |}]>
         ({[ "c0" := {| data := replicate 256 one; dims := [2; 1; 128]%nat |} ]}
            : gmap string Tensor)))])
  /\
  (forall (e : Engine) (a : ActionCode) (lstm : Session)
     (hArr cArr : list number) (outputs : gmap string Tensor) (nl h1 c1 : Tensor),
   well_formed e -> disabled (st e) = false -> lstmSession (st e) = Some lstm ->
   hidden_buffers (st e) = (hArr, cArr) ->
   length hArr = 256%nat -> length cArr = 256%nat ->
   let feeds := stepCallFeeds (latent (st e)) (action_value a) hArr cArr in
   lstm feeds = Ok outputs ->
   outputs !! "next_latent" = Some nl -> outputs !! "h1" = Some h1 ->
   outputs !! "c1" = Some c1 ->
   float32_data (data h1) -> float32_data (data c1) ->
   let e1 := dispatch (ClickAction a) e in
   let e2 := dispatch (StepSettles (nextId e)) e1 in
   steps e1
   = steps e ++ [{| call_id := nextId e; call_feeds := feeds; call_outcome := lstm feeds |}]
   /\ feeds !! "latent"
      = Some {| data := toFloat32Array 16 (latent (st e)); dims := [1; 16]%nat |}
   /\ feeds !! "action" = Some {| data := [action_value a]; dims := [1; 1]%nat |}
   /\ (action_value a = of_Z 0 \/ action_value a = of_Z 1)
   /\ feeds !! "h0" = Some {| data := hArr; dims := [2; 1; 128]%nat |}
   /\ feeds !! "c0" = Some {| data := cArr; dims := [2; 1; 128]%nat |}
   /\ (hData (st e) = None \/ cData (st e) = None ->
       hArr = replicate 256 (of_Z 0) /\ cArr = replicate 256 (of_Z 0))
   /\ (forall h c, hData (st e) = Some h -> cData (st e) = Some c ->
       hArr = h /\ cArr = c)
   /\ engine_state e1 = engine_state e
   /\ latent (st e2) = data nl
   /\ hData (st e2) = Some (data h1)
   /\ cData (st e2) = Some (data c1)
   /\ steps e2 = steps e
   /\ (canDecode e ->
       exists dec, decoderSession (st e) = Some dec
         /\ decodes e2
            = decodes e ++
                [{| call_id := S (nextId e); call_feeds := decodeFeeds (data nl);
                    call_outcome := dec (decodeFeeds (data nl)) |}]))
  /\
  (forall (e : Engine) (a : ActionCode) (lstm : Session)
     (hArr cArr : list number) (outputs : gmap string Tensor) (nl h1 c1 : Tensor),
   well_formed e -> disabled (st e) = false -> lstmSession (st e) = Some lstm ->
   hidden_buffers (st e) = (hArr, cArr) ->
   length hArr = 256%nat -> length cArr = 256%nat ->
   let feeds := stepCallFeeds (latent (st e)) (action_value a) hArr cArr in
   lstm feeds = Ok outputs ->
   outputs !! "next_latent" = Some nl -> outputs !! "h1" = Some h1 ->
   outputs !! "c1" = Some c1 ->
   float32_data (data h1) -> float32_data (data c1) ->
   let e1 := dispatch (ClickAction a) e in
   let e2 := dispatch (StepSettles (nextId e)) e1 in
   (* the latent tensor holds the current latent, component by component *)
   (forall i v, latent (st e) !! i = Some v -> (i < 16)%nat ->
      exists t, feeds !! "latent" = Some t /\ data t !! i = Some (fround v))
   /\ (length (latent (st e)) = 16%nat ->
       call_feeds <$> steps e1
       = (call_feeds <$> steps e)
         ++ [<["latent" := {| data := fround <$> latent (st e); dims := [1; 16]%nat |}]>
             (<["action" := {| data := [action_value a]; dims := [1; 1]%nat |}]>
             (<["h0" := {| data := hArr; dims := [2; 1; 128]%nat |}]>
             ({[ "c0" := {| data := cArr; dims := [2; 1; 128]%nat |} ]}
                : gmap string Tensor)))])
   /\ (length (latent (st e)) = 16%nat -> float32_data (latent (st e)) ->
       feeds !! "latent" = Some {| data := latent (st e); dims := [1; 16]%nat |})
   (* the decode that follows is one of the new latent *)
   /\ (canDecode e -> length (data nl) = 16%nat ->
       let zTensor := {| data := fround <$> data nl; dims := [1; 16]%nat |} in
       exists dec, decoderSession (st e) = Some dec
         /\ decodes e2
            = decodes e ++
                [{| call_id := S (nextId e); call_feeds := {[ "z" := zTensor ]};
                    call_outcome := dec {[ "z" := zTensor ]} |}])
   /\ (canDecode e -> length (data nl) = 16%nat -> float32_data (data nl) ->
       call_feeds <$> decodes e2
       = (call_feeds <$> decodes e)
         ++ [{[ "z" := {| data := data nl; dims := [1; 16]%nat |} ]}])).
Proof.
  split; [|split; [exact advance_general|exact advance_literal]].
  cbn zeta.
  destruct (loaded_ready Mock.lstmOnes) as (Hwf & Hen & Hl & Hready & Hid & Hst).
  pose proof (advance_general (Mock.loaded Mock.lstmOnes) LEFT Mock.lstmOnes
                (zeros 256) (zeros 256) _ _ _ _ Hwf Hen Hl eq_refl
                (zeros_length 256) (zeros_length 256) eq_refl eq_refl eq_refl eq_refl
                ones_float32 ones_float32) as H.
  pose proof (advance_literal (Mock.loaded Mock.lstmOnes) LEFT Mock.lstmOnes
                (zeros 256) (zeros 256) _ _ _ _ Hwf Hen Hl eq_refl
                (zeros_length 256) (zeros_length 256) eq_refl eq_refl eq_refl eq_refl
                ones_float32 ones_float32) as HL.
  cbn zeta in H, HL. rewrite Hid in H, HL.
  destruct H as (H1 & _ & _ & _ & _ & _ & _ & _ & _ & Hz & Hh & Hc & _ & Hdec).
  destruct HL as (_ & HL1 & _ & _ & HL2).
  destruct stepped_once_ready as (Hwf2 & Hen2 & Hl2 & Hb2 & Hlat2 & Hid2 & Hs2).
  cbn zeta in Hwf2, Hen2, Hl2, Hb2, Hlat2, Hid2, Hs2.
  pose proof (advance_literal _ RIGHT Mock.lstmOnes
                (Mock.ones 256) (Mock.ones 256) _ _ _ _ Hwf2 Hen2 Hl2 Hb2
                (length_replicate 256 _) (length_replicate 256 _)
                eq_refl eq_refl eq_refl eq_refl ones_float32 ones_float32) as H3.
  cbn zeta in H3. destruct H3 as (_ & H3 & _).
  split; [exact Hst|].
  split; [rewrite H1; reflexivity|].
  split; [exact Hz|]. split; [exact Hh|]. split; [exact Hc|].
  split; [destruct (Hdec Hready) as (dec & _ & ->); reflexivity|].
  split; [rewrite (HL1 eq_refl); reflexivity|].
  split; [rewrite (HL2 Hready eq_refl unitLatent_float32); reflexivity|].
  rewrite H3 by (rewrite Hlat2; reflexivity).
  rewrite Hs2, Hlat2. reflexivity.
Qed.

Lemma advance_feeds_model_and_stores_outputs_witness :
  let s2 := dispatch (StepSettles 1)
              (dispatch (ClickAction LEFT) (Mock.loaded Mock.lstmOnes)) in
  let s3 := dispatch (ClickAction RIGHT) s2 in
  let s4 := dispatch (StepSettles 3) s3 in
  latent (st s4) = Mock.unitLatent
  /\ hData (st s4) = Some (Mock.ones 256)
  /\ call_feeds <$> steps s3
     = [<["latent" := {| data := of_Z 1 :: replicate 15 (of_Z 0); dims := [1; 16]%nat |}]>
        (<["action" := {| data := [of_Z 1]; dims := [1; 1]%nat |}]>
        (<["h0" := {| data := replicate 256 (of_Z 1); dims := [2; 1; 128]%nat |}]>
        ({[ "c0" := {| data := replicate 256 (of_Z 1); dims := [2; 1; 128]%nat |} ]}
           : gmap string Tensor)))].
Proof.
  cbn zeta.
  destruct stepped_once_ready as (Hwf2 & Hen2 & Hl2 & Hb2 & Hlat2 & Hid2 & Hs2).
  cbn zeta in Hwf2, Hen2, Hl2, Hb2, Hlat2, Hid2, Hs2.
  destruct advance_feeds_model_and_stores_outputs as (_ & Hgen & Hlit).
  pose proof (Hgen _ RIGHT Mock.lstmOnes (Mock.ones 256) (Mock.ones 256) _ _ _ _
                Hwf2 Hen2 Hl2 Hb2 (length_replicate 256 _) (length_replicate 256 _)
                eq_refl eq_refl eq_refl eq_refl ones_float32 ones_float32) as H.
  pose proof (Hlit _ RIGHT Mock.lstmOnes (Mock.ones 256) (Mock.ones 256) _ _ _ _
                Hwf2 Hen2 Hl2 Hb2 (length_replicate 256 _) (length_replicate 256 _)
                eq_refl eq_refl eq_refl eq_refl ones_float32 ones_float32) as H'.
  cbn zeta in H, H'. rewrite Hid2 in H.
  destruct H as (_ & _ & _ & _ & _ & _ & _ & _ & _ & Hz & Hh & _).
  destruct H' as (_ & H3 & _).
  split; [exact Hz|]. split; [exact Hh|].
  rewrite H3 by (rewrite Hlat2; reflexivity).
  rewrite Hs2, Hlat2. reflexivity.
Defined.

Lemma slider_steps_in_range :
  forallb (fun n => in_slider_range (sliderValue (Z.of_nat n))) (seq 0 121) = true.
Proof. vm_compute. reflexivity. Qed.

(** Every value the range input can hand to the handler lies between
    its [min] and its [max]. *)
Lemma sliderValue_in_range (k : Z) : in_slider_range (sliderValue k) = true.
Proof.
  set (k' := Z.max 0 (Z.min slider_steps k)).
  assert (Hk : 0 <= k' <= 120).
  { unfold k'. change slider_steps with 120. lia. }
  assert (Hsame : sliderValue k = sliderValue (Z.of_nat (Z.to_nat k'))).
  { unfold sliderValue. fold k'. rewrite Z2Nat.id by lia.
    replace (Z.max 0 (Z.min slider_steps k')) with k'
      by (change slider_steps with 120; lia).
    reflexivity. }
  rewrite Hsame.
  pose proof slider_steps_in_range as Hall.
  rewrite forallb_forall in Hall. apply Hall.
  apply in_seq. lia.
Qed.

(** Outside the tensor contract: an answer without [h1] throws after
    [setLatent] was called, so the latent is replaced, the hidden and
    cell state stay, and the error is reported. *)
Remark step_answer_without_h1 (e : Engine) (id : nat) (c : Call) (rest : list Call)
  (outputs : gmap string Tensor) (nl : Tensor) :
  take_call id (steps e) = Some (c, rest) -> call_outcome c = Ok outputs ->
  outputs !! "next_latent" = Some nl -> outputs !! "h1" = None ->
  engine_state (dispatch (StepSettles id) e) = (data nl, hData (st e), cData (st e))
  /\ error (st (dispatch (StepSettles id) e)) = Some undefined_data.
Proof.
  intros Ht Hc Hn Hh. rewrite (step_settles e id c rest Ht), Hc.
  unfold engine_state. rewrite commit_st.
  unfold stepSettled, output_data. rewrite Hn, Hh. split; reflexivity.
Qed.

(** Whatever outputs are missing, a dynamics call that answered with a
    [next_latent] stores it as it is. *)
Lemma step_stores_next_latent (e : Engine) (id : nat) (c : Call) (rest : list Call)
  (outputs : gmap string Tensor) (nl : Tensor) :
  take_call id (steps e) = Some (c, rest) -> call_outcome c = Ok outputs ->
  outputs !! "next_latent" = Some nl ->
  latent (st (dispatch (StepSettles id) e)) = data nl.
Proof.
  intros Ht Hc Hn. rewrite (step_settles e id c rest Ht), Hc, commit_st.
  unfold stepSettled, output_data. rewrite Hn.
  destruct (outputs !! "h1"); [|reflexivity].
  destruct (outputs !! "c1"); reflexivity.
Qed.

(** C9. The edit path of the control surface only admits values between
    -3 and 3: a slider event stores the value of the range input, which
    lies in that range. A dynamics step stores the [next_latent] of the
    model unchanged, and such a value can lie outside the range. *)
Theorem manual_edits_in_range_steps_unclamped :
  (forall k, in_slider_range (sliderValue k) = true
             /\ leb (of_Z (-3)) (sliderValue k) = true
             /\ leb (sliderValue k) (of_Z 3) = true)
  /\ (forall (e : Engine) (i : nat) (k : Z),
        (i < length (latent (st e)))%nat ->
        latent (st (dispatch (SliderInput i k) e)) !! i = Some (sliderValue k))
  /\ (forall (e : Engine) (i : nat) (k : Z),
        ~ (i < length (latent (st e)))%nat -> dispatch (SliderInput i k) e = e)
  /\ (forall (e : Engine) (id : nat) (c : Call) (rest : list Call)
        (outputs : gmap string Tensor) (nl : Tensor),
        take_call id (steps e) = Some (c, rest) -> call_outcome c = Ok outputs ->
        outputs !! "next_latent" = Some nl ->
        latent (st (dispatch (StepSettles id) e)) = data nl)
  /\ (let s := run [ClickAction RIGHT; StepSettles 1] (Mock.loaded Mock.lstmSevens) in
      latent (st s) = replicate 16 (of_Z 7)
      /\ ltb (of_Z 3) (of_Z 7) = true
      /\ in_slider_range (of_Z 7) = false).
Proof.
  split; [|split; [|split; [|split]]].
  - intros k. pose proof (sliderValue_in_range k) as H.
    split; [exact H|]. unfold in_slider_range in H.
    apply andb_true_iff in H. exact H.
  - intros e i k Hi. cbn [dispatch]. destruct (decide _); [|contradiction].
    unfold handleSliderChange. rewrite commit_st.
    cbn [apply_updates fold_left apply_update latent].
    unfold array_set. destruct (decide _); [|contradiction].
    apply list_lookup_insert_eq. exact Hi.
  - intros e i k Hi. cbn [dispatch]. destruct (decide _); [contradiction|reflexivity].
  - exact step_stores_next_latent.
  - cbn zeta. split; [|split; reflexivity].
    set (feeds := stepCallFeeds zeroLatent (action_value RIGHT) (zeros 256) (zeros 256)).
    exact (step_stores_next_latent
             (dispatch (ClickAction RIGHT) (Mock.loaded Mock.lstmSevens)) 1
             {| call_id := 1; call_feeds := feeds;
                call_outcome := Mock.lstmSevens feeds |}
             [] _ _ eq_refl eq_refl eq_refl).
Qed.

Lemma manual_edits_in_range_steps_unclamped_witness :
  latent (st (dispatch (SliderInput 2 500) (Mock.loaded Mock.lstmOnes))) !! 2%nat
  = Some (of_Z 3).
Proof.
  destruct manual_edits_in_range_steps_unclamped as (_ & H & _).
  assert (Hi : (2 < length (latent (st (Mock.loaded Mock.lstmOnes))))%nat)
    by (vm_compute; lia).
  exact (H (Mock.loaded Mock.lstmOnes) 2%nat 500 Hi).
Defined.

End StepClaims.

(** ** Overlapping decodes *)

Section Decodes.
Import JS Ort Engine.

Lemma take_call_at (c : Call) (pre post : list Call) :
  call_id c ∉ (call_id <$> pre) ->
  take_call (call_id c) (pre ++ c :: post) = Some (c, pre ++ post).
Proof.
  induction pre as [|c' pre IH]; intros Hnot; cbn [take_call app].
  - destruct (decide _); [reflexivity|contradiction].
  - rewrite fmap_cons in Hnot. apply not_elem_of_cons in Hnot as [Hne Hnot].
    destruct (decide (call_id c' = call_id c)); [congruence|].
    rewrite (IH Hnot). reflexivity.
Qed.

Lemma decode_answered (e : Engine) (outputs : gmap string Tensor) (t : Tensor)
  (sc bc : list Z) :
  outputs !! "x_recon" = Some t -> smallCanvas e = Some sc -> bigCanvas e = Some bc ->
  decodeSettled (Ok outputs) e
  = with_bigCanvas (Pixels.drawImage IMG_W IMG_H (Pixels.toRGBA (data t)))
      (with_smallCanvas (Pixels.toRGBA (data t)) e).
Proof.
  intros Hx Hs Hb. unfold decodeSettled, output_data. rewrite Hx, Hs.
  cbn [bigCanvas with_smallCanvas]. rewrite Hb. reflexivity.
Qed.

(** A decoder call that answers is drawn on both canvases, whatever was
    requested since it was made. *)
Lemma decode_settles_drawn (e : Engine) (c : Call) (pre post : list Call)
  (outputs : gmap string Tensor) (t : Tensor) (sc bc : list Z) :
  decodes e = pre ++ c :: post -> call_id c ∉ (call_id <$> pre) ->
  call_outcome c = Ok outputs -> outputs !! "x_recon" = Some t ->
  smallCanvas e = Some sc -> bigCanvas e = Some bc ->
  dispatch (DecodeSettles (call_id c)) e
  = with_bigCanvas (Pixels.drawImage IMG_W IMG_H (Pixels.toRGBA (data t)))
      (with_smallCanvas (Pixels.toRGBA (data t))
         (with_decodes (pre ++ post) (nextId e) e)).
Proof.
  intros Hd Hnot Hc Hx Hs Hb. cbn [dispatch].
  rewrite Hd, (take_call_at c pre post Hnot), Hc.
  apply (decode_answered _ outputs t sc bc); [exact Hx|exact Hs|exact Hb].
Qed.

(** Where two calls in flight with distinct ids are found, in either
    order of removal. *)
Lemma in_flight_positions (c1 c2 : Call) (pre mid post : list Call) :
  NoDup (call_id <$> (pre ++ c1 :: mid ++ c2 :: post)) ->
  take_call (call_id c2) (pre ++ c1 :: mid ++ c2 :: post)
  = Some (c2, pre ++ c1 :: mid ++ post)
  /\ take_call (call_id c1) (pre ++ c1 :: mid ++ post)
     = Some (c1, pre ++ mid ++ post)
  /\ take_call (call_id c1) (pre ++ c1 :: mid ++ c2 :: post)
     = Some (c1, pre ++ mid ++ c2 :: post)
  /\ take_call (call_id c2) (pre ++ mid ++ c2 :: post)
     = Some (c2, pre ++ mid ++ post).
Proof.
  intros Hnd. rewrite fmap_app, fmap_cons, fmap_app, fmap_cons in Hnd.
  apply NoDup_app in Hnd as (_ & Hpre & Hnd).
  apply NoDup_cons in Hnd as (H1 & Hnd).
  apply NoDup_app in Hnd as (_ & Hmid & _).
  assert (Hn1 : call_id c1 ∉ call_id <$> pre).
  { intros Hin. apply (Hpre _ Hin). left. }
  assert (Hn2 : call_id c2 ∉ call_id <$> (pre ++ c1 :: mid)).
  { rewrite fmap_app, fmap_cons. intros Hin.
    apply elem_of_app in Hin as [Hin|Hin].
    - apply (Hpre _ Hin). right. apply elem_of_app. right. left.
    - apply elem_of_cons in Hin as [Heq|Hin].
      + apply H1. rewrite <- Heq. apply elem_of_app. right. left.
      + apply (Hmid _ Hin). left. }
  assert (Hn2' : call_id c2 ∉ call_id <$> (pre ++ mid)).
  { intros Hin. apply Hn2. rewrite fmap_app in Hin |- *.
    apply elem_of_app in Hin as [Hin|Hin]; apply elem_of_app; [left|right]; [exact Hin|].
    rewrite fmap_cons. right. exact Hin. }
  split; [|split; [|split]].
  - pose proof (take_call_at c2 (pre ++ c1 :: mid) post Hn2) as H.
    rewrite <- !app_assoc in H. exact H.
  - exact (take_call_at c1 pre (mid ++ post) Hn1).
  - exact (take_call_at c1 pre (mid ++ c2 :: post) Hn1).
  - pose proof (take_call_at c2 (pre ++ mid) post Hn2') as H.
    rewrite <- !app_assoc in H. exact H.
Qed.

(** Two decoder calls that answer one after the other: the canvases end
    with the frame of the second to answer. *)
Lemma settle_two (e : Engine) (ca cb : Call) (r1 r2 : list Call)
  (outa outb : gmap string Tensor) (ta tb : Tensor) (sc bc : list Z) :
  take_call (call_id ca) (decodes e) = Some (ca, r1) ->
  take_call (call_id cb) r1 = Some (cb, r2) ->
  call_outcome ca = Ok outa -> outa !! "x_recon" = Some ta ->
  call_outcome cb = Ok outb -> outb !! "x_recon" = Some tb ->
  smallCanvas e = Some sc -> bigCanvas e = Some bc ->
  run [DecodeSettles (call_id ca); DecodeSettles (call_id cb)] e
  = with_bigCanvas (Pixels.drawImage IMG_W IMG_H (Pixels.toRGBA (data tb)))
      (with_smallCanvas (Pixels.toRGBA (data tb)) (with_decodes r2 (nextId e) e)).
Proof.
  intros Ha Hb Hoa Hxa Hob Hxb Hs Hbig.
  unfold run. cbn [fold_left]. cbn [dispatch].
  rewrite Ha, Hoa.
  rewrite (decode_answered (with_decodes r1 (nextId e) e) outa ta sc bc Hxa Hs Hbig).
  cbn [decodes with_bigCanvas with_smallCanvas with_decodes].
  rewrite Hb, Hob.
  set (e1 := with_bigCanvas (Pixels.drawImage IMG_W IMG_H (Pixels.toRGBA (data ta)))
               (with_smallCanvas (Pixels.toRGBA (data ta))
                  (with_decodes r1 (nextId e) e))).
  rewrite (decode_answered (with_decodes r2 (nextId e1) e1) outb tb
             (Pixels.toRGBA (data ta))
             (Pixels.drawImage IMG_W IMG_H (Pixels.toRGBA (data ta)))
             Hxb eq_refl eq_refl).
  reflexivity.
Qed.

(** C1, as the code has it. Of two decoder calls in flight, the frame
    left on the canvases is the one of the call that answers last,
    whichever was made first: when the later request answers first and
    the earlier one afterwards, the earlier frame is drawn over the later
    one. A settling decode writes neither the latent nor the recurrent
    state, which stay those of the latest request. *)
Theorem last_settled_decode_wins (e : Engine) (c1 c2 : Call) (pre mid post : list Call)
  (out1 out2 : gmap string Tensor) (t1 t2 : Tensor) (sc bc : list Z) :
  decodes e = pre ++ c1 :: mid ++ c2 :: post ->
  NoDup (call_id <$> decodes e) ->
  call_outcome c1 = Ok out1 -> out1 !! "x_recon" = Some t1 ->
  call_outcome c2 = Ok out2 -> out2 !! "x_recon" = Some t2 ->
  smallCanvas e = Some sc -> bigCanvas e = Some bc ->
  let late1 := run [DecodeSettles (call_id c2); DecodeSettles (call_id c1)] e in
  let late2 := run [DecodeSettles (call_id c1); DecodeSettles (call_id c2)] e in
  smallCanvas late1 = Some (Pixels.toRGBA (data t1))
  /\ bigCanvas late1 = Some (Pixels.drawImage IMG_W IMG_H (Pixels.toRGBA (data t1)))
  /\ smallCanvas late2 = Some (Pixels.toRGBA (data t2))
  /\ bigCanvas late2 = Some (Pixels.drawImage IMG_W IMG_H (Pixels.toRGBA (data t2)))
  /\ st late1 = st e /\ st late2 = st e
  /\ decodes late1 = pre ++ mid ++ post /\ decodes late2 = pre ++ mid ++ post.
Proof.
  intros Hd Hnd Ho1 Hx1 Ho2 Hx2 Hs Hb. cbn zeta.
  rewrite Hd in Hnd.
  destruct (in_flight_positions c1 c2 pre mid post Hnd) as (P21 & P1 & P12 & P2).
  rewrite <- Hd in P21, P12.
  rewrite (settle_two e c2 c1 _ _ out2 out1 t2 t1 sc bc P21 P1 Ho2 Hx2 Ho1 Hx1 Hs Hb).
  rewrite (settle_two e c1 c2 _ _ out1 out2 t1 t2 sc bc P12 P2 Ho1 Hx1 Ho2 Hx2 Hs Hb).
  split; [reflexivity|]. split; [reflexivity|]. split; [reflexivity|].
  split; [reflexivity|]. split; [reflexivity|]. split; [reflexivity|].
  split; reflexivity.
Qed.

Lemma Ok_inj {A : Type} (a b : A) : Ok a = Ok b -> a = b.
Proof. intros H. congruence. Qed.

Lemma Some_inj {A : Type} (a b : A) : Some a = Some b -> a = b.
Proof. intros H. congruence. Qed.

Lemma get_replicate (n i : nat) (v : number) :
  (i < n)%nat -> get (replicate n v) i = v.
Proof. intros H. unfold get. rewrite lookup_replicate_2 by exact H. reflexivity. Qed.

Lemma decoderFlat_answer (z : list number) :
  Mock.decoderFlat (decodeFeeds z)
  = Ok {[ "x_recon" := Mock.flatFrame (toFloat32Array LATENT_DIM z) ]}.
Proof.
  unfold Mock.decoderFlat, decodeFeeds. rewrite lookup_singleton_eq. reflexivity.
Defined.

Lemma flatFrame_lookup (z : list number) :
  ({[ "x_recon" := Mock.flatFrame z ]} : gmap string Tensor) !! "x_recon"
  = Some (Mock.flatFrame z).
Proof. apply lookup_singleton_eq. Defined.

(** The first byte of the frame the flat decoder paints. *)
Lemma flatFrame_first_byte (z : list number) :
  Pixels.toRGBA (data (Mock.flatFrame z)) !! 0%nat
  = Some (Pixels.channelByte (get z 0)).
Proof.
  change (Pixels.toRGBA (data (Mock.flatFrame z)) !! 0%nat)
    with (Pixels.toRGBA (data (Mock.flatFrame z)) !! (0 * 4 + 0)%nat).
  rewrite (toRGBA_lookup (data (Mock.flatFrame z)) 0 0)
    by (unfold Pixels.planeSize, IMG_H, IMG_W; lia).
  unfold Pixels.interleaved, Mock.flatFrame. cbn [data].
  rewrite get_replicate by (unfold Pixels.planeSize, IMG_H, IMG_W; lia).
  reflexivity.
Qed.

(** Two edits in a row with the decoder still busy: the first sets
    component 0 to 3, the second sets it back to 0. *)
Lemma two_edits_in_flight :
  let z1 := <[0%nat := of_Z 3]> zeroLatent in
  let e := run [SliderInput 0 120; SliderInput 0 60] (Mock.loaded Mock.lstmOnes) in
  decodes e
  = [{| call_id := 0; call_feeds := decodeFeeds zeroLatent;
        call_outcome := Mock.decoderFlat (decodeFeeds zeroLatent) |}]
    ++ {| call_id := 1; call_feeds := decodeFeeds z1;
          call_outcome := Mock.decoderFlat (decodeFeeds z1) |}
    :: [] ++ {| call_id := 2; call_feeds := decodeFeeds zeroLatent;
                call_outcome := Mock.decoderFlat (decodeFeeds zeroLatent) |} :: []
  /\ NoDup (call_id <$> decodes e)
  /\ latent (st e) = zeroLatent
  /\ smallCanvas e = Some (blankCanvas IMG_W IMG_H)
  /\ bigCanvas e = Some (blankCanvas (IMG_W * SCALE) (IMG_H * SCALE)).
Proof.
  cbn zeta. split; [reflexivity|]. split; [|repeat split; reflexivity].
  change (NoDup [0; 1; 2]%nat).
  apply NoDup_cons. split; [intros H; repeat (apply elem_of_cons in H as [H|H]; [discriminate|]); inversion H|].
  apply NoDup_cons. split; [intros H; repeat (apply elem_of_cons in H as [H|H]; [discriminate|]); inversion H|].
  apply NoDup_cons. split; [intros H; inversion H|]. apply NoDup_nil. exact I.
Defined.

(** C1, counterexample. The decoder paints the first latent component.
    The latent is edited to 3 and then back to 0 while the decoder is
    busy; the decode of the second edit answers first, the decode of the
    first edit answers late. The canvas ends with the frame of the first
    edit (first byte 255), not with the frame of the latest request
    (first byte 0). *)
Lemma latest_request_wins_fails : ~ latest_request_wins.
Proof.
  intros Hclaim.
  destruct two_edits_in_flight as (Hd & Hnd & _ & Hs & Hb).
  cbn zeta in Hd, Hnd, Hs, Hb.
  set (z1 := toFloat32Array LATENT_DIM (<[0%nat := of_Z 3]> zeroLatent)).
  set (z2 := toFloat32Array LATENT_DIM zeroLatent).
  destruct (Hclaim _ _ _ _ [] [] _ _ _ _ _ _ Hd Hnd
              (decoderFlat_answer _) (flatFrame_lookup z1)
              (decoderFlat_answer _) (flatFrame_lookup z2) Hs Hb) as [Hsaid _].
  cbn zeta in Hsaid.
  pose proof Hnd as Hpos. rewrite Hd in Hpos.
  apply in_flight_positions in Hpos as (P21 & P1 & _ & _).
  rewrite <- Hd in P21.
  rewrite (settle_two _ _ _ _ _ _ _ _ _ _ _ P21 P1
             (decoderFlat_answer _) (flatFrame_lookup z2)
             (decoderFlat_answer _) (flatFrame_lookup z1) Hs Hb) in Hsaid.
  cbn [smallCanvas with_bigCanvas with_smallCanvas] in Hsaid.
  apply Some_inj in Hsaid.
  apply (f_equal (fun frame => frame !! 0%nat)) in Hsaid.
  rewrite !flatFrame_first_byte in Hsaid.
  vm_compute in Hsaid. discriminate Hsaid.
Qed.

Lemma last_settled_decode_wins_witness :
  let e := run [SliderInput 0 120; SliderInput 0 60] (Mock.loaded Mock.lstmOnes) in
  let late1 := run [DecodeSettles 2; DecodeSettles 1] e in
  smallCanvas late1
  = Some (Pixels.toRGBA
            (data (Mock.flatFrame
                     (toFloat32Array LATENT_DIM (<[0%nat := of_Z 3]> zeroLatent)))))
  /\ latent (st late1) = zeroLatent.
Proof.
  cbn zeta.
  destruct two_edits_in_flight as (Hd & Hnd & Hz & Hs & Hb).
  cbn zeta in Hd, Hnd, Hz, Hs, Hb.
  destruct (last_settled_decode_wins _ _ _ _ [] [] _ _ _ _ _ _ Hd Hnd
              (decoderFlat_answer _) (flatFrame_lookup _)
              (decoderFlat_answer _) (flatFrame_lookup _) Hs Hb)
    as (H1 & _ & _ & _ & Hst & _).
  cbn zeta in H1, Hst. cbn [call_id] in H1, Hst.
  split; [exact H1|]. rewrite Hst. exact Hz.
Defined.

End Decodes.

(** ** The pixel conversion *)

Section Conversion.
Import JS Ort Engine Pixels.

Lemma byte_levels_checked :
  forallb (fun n => let k := Z.of_nat n - 255 in
                    channelByte (f32 k 255) =? Z.max 0 (Z.min 255 k))
          (seq 0 766) = true.
Proof. vm_compute. reflexivity. Qed.

(** On the float32 value nearest to [k/255] the conversion gives [k]
    clamped to 0..255, for every [k] from -255 to 510. *)
Lemma byte_levels (k : Z) :
  -255 <= k <= 510 -> channelByte (f32 k 255) = Z.max 0 (Z.min 255 k).
Proof.
  intros Hk. pose proof byte_levels_checked as Hall.
  rewrite forallb_forall in Hall.
  specialize (Hall (Z.to_nat (k + 255))).
  cbn zeta in Hall. rewrite Z2Nat.id in Hall by lia.
  replace (k + 255 - 255) with k in Hall by lia.
  apply Z.eqb_eq, Hall, in_seq. lia.
Qed.

(** C2. In the buffer drawn for a decoder output, the byte at [p*4+c]
    of pixel [p] and channel [c] (red, green, blue in plane order) is
    [max(0, min(255, round(v*255)))] of the value [v] at [c*9216 + p] of
    the output, the byte at [p*4+3] is 255; every byte lies in 0..255;
    a decode that answers puts exactly this buffer on the canvas; the
    values -0.1, 0.0, 0.5, 1.0, 1.1 give 0, 0, 128, 255, 255; and the
    float32 value nearest to [k/255] gives [k] clamped to 0..255. *)
Theorem rgba_conversion (d : list number) (p : nat) :
  (p < IMG_H * IMG_W)%nat ->
  (forall c, (c < 3)%nat ->
     toRGBA d !! (p * 4 + c)%nat
     = Some (ToUint8Clamp
               (Math_max (of_Z 0)
                  (Math_min (of_Z 255)
                     (Math_round (mul (get d (c * (IMG_H * IMG_W) + p)) (of_Z 255)))))))
  /\ toRGBA d !! (p * 4 + 3)%nat = Some 255
  /\ length (toRGBA d) = (IMG_H * IMG_W * 4)%nat
  /\ (forall v, 0 <= channelByte v <= 255)
  /\ (forall (e : Engine) (outputs : gmap string Tensor) (t : Tensor) (sc bc : list Z),
        outputs !! "x_recon" = Some t -> data t = d ->
        smallCanvas e = Some sc -> bigCanvas e = Some bc ->
        smallCanvas (decodeSettled (Ok outputs) e) = Some (toRGBA d))
  /\ channelByte <$> [f32 (-1) 10; f32 0 1; f32 1 2; f32 1 1; f32 11 10]
     = [0; 0; 128; 255; 255]
  /\ (forall k, -255 <= k <= 510 ->
        channelByte (f32 k 255) = Z.max 0 (Z.min 255 k)).
Proof.
  intros Hp.
  split; [|split; [|split; [|split; [|split; [|split]]]]]; [| | | | | |exact byte_levels].
  - intros c Hc. rewrite toRGBA_lookup by (unfold planeSize; lia).
    destruct c as [|[|[|c]]]; [reflexivity|reflexivity|reflexivity|lia].
  - rewrite toRGBA_lookup by (unfold planeSize; lia). reflexivity.
  - apply toRGBA_length.
  - intros v. apply ToUint8Clamp_byte.
  - intros e outputs t sc bc Hx <- Hs Hb.
    rewrite (decode_answered e outputs t sc bc Hx Hs Hb). reflexivity.
  - vm_compute. reflexivity.
Qed.

Lemma rgba_conversion_witness :
  toRGBA (replicate (3 * planeSize) (f32 1 2)) !! 3%nat = Some 255
  /\ length (toRGBA (replicate (3 * planeSize) (f32 1 2))) = (IMG_H * IMG_W * 4)%nat.
Proof.
  assert (Hp : (0 < IMG_H * IMG_W)%nat) by (unfold IMG_H, IMG_W; lia).
  destruct (rgba_conversion (replicate (3 * planeSize) (f32 1 2)) 0 Hp)
    as (_ & Ha & Hl & _).
  split; [exact Ha|exact Hl].
Defined.

End Conversion.

(** * Further properties of the component *)

(** ** Loading the models *)

Section Loading.
Import JS Ort Engine Facts.

Lemma apply_updates_cons (u : update) (us : list update) (s : State) :
  apply_updates (u :: us) s = apply_updates us (apply_update s u).
Proof. reflexivity. Qed.

Lemma apply_updates_keeps_flags (us : list update) (s : State) :
  forallb keeps_flags us = true ->
  decoderSession (apply_updates us s) = decoderSession s
  /\ lstmSession (apply_updates us s) = lstmSession s
  /\ loading (apply_updates us s) = loading s.
Proof.
  revert s. induction us as [|u us IH]; intros s Hall; [auto|].
  cbn [forallb] in Hall. apply andb_true_iff in Hall as [Hu Hus].
  rewrite apply_updates_cons. destruct (IH (apply_update s u) Hus) as (-> & -> & ->).
  destruct u; try discriminate; auto.
Qed.

Lemma apply_updates_error (us : list update) (s : State) :
  is_Some (error s) -> is_Some (error (apply_updates us s)).
Proof.
  revert s. induction us as [|u us IH]; intros s Hs; [exact Hs|].
  rewrite apply_updates_cons. apply IH. destruct u; cbn; eauto.
Qed.

Lemma stepSettled_keeps_flags (outcome : result (gmap string Tensor)) :
  forallb keeps_flags (stepSettled outcome) = true.
Proof.
  unfold stepSettled, output_data. destruct outcome as [outputs|msg]; [|reflexivity].
  destruct (outputs !! "next_latent"); [|reflexivity].
  destruct (outputs !! "h1"); [|reflexivity].
  destruct (outputs !! "c1"); reflexivity.
Qed.

(** What one task does to the state cells: it applies a list of setter
    calls, none of which touches a session or the loading flag once
    loading is over. *)
Lemma dispatch_st (ev : event) (e : Engine) :
  exists us, st (dispatch ev e) = apply_updates us (st e)
             /\ (loading (st e) = false -> forallb keeps_flags us = true).
Proof.
  destruct ev as [dec lstm|msg|i k|a| |id|id]; cbn [dispatch].
  - destruct (loading (st e)) eqn:Hl.
    + eexists. split; [apply commit_st|discriminate].
    + exists []. auto.
  - destruct (loading (st e)) eqn:Hl.
    + eexists. split; [apply commit_st|discriminate].
    + exists []. auto.
  - destruct (decide _).
    + eexists. split; [apply commit_st|reflexivity].
    + exists []. auto.
  - destruct (disabled (st e)); [exists []; auto|].
    unfold stepWithAction. destruct (lstmSession (st e)); [|exists []; auto].
    destruct (stepFeeds _ _) as [feeds|msg]; [exists []; auto|].
    eexists. split; [apply commit_st|reflexivity].
  - eexists. split; [apply commit_st|reflexivity].
  - destruct (take_call id (decodes e)) as [[c rest]|]; [|exists []; auto].
    destruct (decodeSettled_keeps (call_outcome c) (with_decodes rest (nextId e) e))
      as (-> & _ & _).
    destruct (decodeSettled_error _ _) as [msg|].
    + exists [setError msg]. auto.
    + exists []. auto.
  - destruct (take_call id (steps e)) as [[c rest]|]; [|exists []; auto].
    exists (stepSettled (call_outcome c)).
    split; [rewrite commit_st; reflexivity|]. intros _. apply stepSettled_keeps_flags.
Qed.

Lemma disabled_without_decoder (s : State) :
  decoderSession s = None -> disabled s = true.
Proof. intros H. unfold disabled. rewrite H. destruct (loading s); reflexivity. Qed.

Lemma enabled_inv (s : State) :
  disabled s = false ->
  loading s = false /\ is_Some (decoderSession s) /\ is_Some (lstmSession s).
Proof.
  unfold disabled. destruct (loading s), (decoderSession s), (lstmSession s);
    cbn; try discriminate; eauto.
Qed.

(** X1. When the two models have loaded, both sessions are stored, the
    loading flag drops, the step buttons get enabled, and the latent as
    it is then, edits made while loading included, is decoded once: the
    decoder is called with one tensor [z] of shape [1,16] that holds the
    latent's components rounded to float32, the latent itself when it
    holds float32 values; latent, recurrent state, error and dynamics
    calls are untouched. *)
Theorem models_loaded_enable_and_decode (e : Engine) (dec lstm : Session)
  (sc bc : list Z) :
  loading (st e) = true -> smallCanvas e = Some sc -> bigCanvas e = Some bc ->
  let e' := dispatch (ModelsLoaded dec lstm) e in
  decoderSession (st e') = Some dec
  /\ lstmSession (st e') = Some lstm
  /\ loading (st e') = false
  /\ disabled (st e') = false
  /\ engine_state e' = engine_state e
  /\ error (st e') = error (st e)
  /\ steps e' = steps e
  /\ decodes e'
     = decodes e ++
         [{| call_id := nextId e; call_feeds := decodeFeeds (latent (st e));
             call_outcome := dec (decodeFeeds (latent (st e))) |}]
  /\ (length (latent (st e)) = 16%nat ->
      let zTensor := {| data := fround <$> latent (st e); dims := [1; 16]%nat |} in
      decodes e'
      = decodes e ++
          [{| call_id := nextId e; call_feeds := {[ "z" := zTensor ]};
              call_outcome := dec {[ "z" := zTensor ]} |}])
  /\ (length (latent (st e)) = 16%nat -> float32_data (latent (st e)) ->
      call_feeds <$> decodes e'
      = (call_feeds <$> decodes e)
        ++ [{[ "z" := {| data := latent (st e); dims := [1; 16]%nat |} ]}])
  /\ (forall i v, latent (st e) !! i = Some v -> (i < 16)%nat ->
      exists c t, last (decodes e') = Some c /\ call_feeds c !! "z" = Some t
        /\ data t !! i = Some (fround v)).
Proof.
  intros Hl Hs Hb. cbn zeta. cbn [dispatch]. rewrite Hl.
  assert (Hst : st (commit [setDecoderSession dec; setLstmSession lstm; setLoading false] e)
                = apply_updates [setDecoderSession dec; setLstmSession lstm; setLoading false]
                    (st e)) by apply commit_st.
  rewrite !engine_state_commit, commit_steps, Hst.
  split; [reflexivity|]. split; [reflexivity|]. split; [reflexivity|].
  split; [reflexivity|]. split; [reflexivity|]. split; [reflexivity|].
  split; [reflexivity|].
  assert (Hd : decodes (commit [setDecoderSession dec; setLstmSession lstm;
                                setLoading false] e)
               = decodes e ++
                   [{| call_id := nextId e; call_feeds := decodeFeeds (latent (st e));
                       call_outcome := dec (decodeFeeds (latent (st e))) |}]).
  { unfold commit. cbn [existsb touches_decode_deps orb].
    rewrite (runDecoder_ready _ dec sc bc); [reflexivity|reflexivity|exact Hs|exact Hb]. }
  split; [exact Hd|]. split; [|split].
  - intros Hlen. rewrite Hd, decodeFeeds_fmap by exact Hlen. reflexivity.
  - intros Hlen Hf. rewrite Hd, fmap_app. cbn [fmap list_fmap call_feeds].
    rewrite decodeFeeds_fmap by exact Hlen. unfold float32_data in Hf. rewrite Hf.
    reflexivity.
  - intros i v Hv Hi. rewrite Hd, last_snoc. eexists _, _.
    split; [reflexivity|]. cbn [call_feeds]. unfold decodeFeeds.
    rewrite lookup_singleton_eq. split; [reflexivity|]. cbn [data].
    rewrite toFloat32Array_lookup by exact Hi. unfold get. rewrite Hv. reflexivity.
Qed.

Lemma models_loaded_enable_and_decode_witness :
  let e := dispatch (SliderInput 3 110) mount in
  let e' := dispatch (ModelsLoaded Mock.decoderFlat Mock.lstmOnes) e in
  let z := of_Z 0 in
  disabled (st e') = false
  /\ call_feeds <$> decodes e'
     = [ {[ "z" := {| data := [z; z; z; div (of_Z 5) (of_Z 2); z; z; z; z;
                               z; z; z; z; z; z; z; z];
                      dims := [1; 16]%nat |} ]} ].
Proof.
  cbn zeta.
  destruct (models_loaded_enable_and_decode (dispatch (SliderInput 3 110) mount)
              Mock.decoderFlat Mock.lstmOnes _ _ eq_refl eq_refl eq_refl)
    as (_ & _ & _ & Hen & _ & _ & _ & _ & _ & Hd & _).
  split; [exact Hen|]. rewrite Hd.
  - reflexivity.
  - reflexivity.
  - vm_compute. reflexivity.
Defined.

Lemma unloaded_step (ev : event) (e : Engine) :
  is_models_loaded ev = false -> unloaded e -> unloaded (dispatch ev e).
Proof.
  intros Hev (Hd & Hl & Hdec & Hst).
  assert (Hquiet : forall us,
             forallb keeps_flags us = true -> unloaded (commit us e)).
  { intros us Hus.
    destruct (apply_updates_keeps_flags us (st e) Hus) as (Hd' & Hl' & _).
    unfold commit. destruct (existsb _ us).
    - rewrite runDecoder_unloaded by (cbn; congruence).
      repeat split; cbn; congruence.
    - repeat split; cbn; congruence. }
  destruct ev as [dec lstm|msg|i k|a| |id|id]; try discriminate; cbn [dispatch].
  - destruct (loading (st e)); [|repeat split; assumption].
    unfold commit. cbn [existsb touches_decode_deps orb].
    repeat split; cbn; assumption.
  - destruct (decide _); [|repeat split; assumption].
    apply Hquiet. reflexivity.
  - rewrite (disabled_without_decoder _ Hd). repeat split; assumption.
  - apply Hquiet. reflexivity.
  - rewrite Hdec. repeat split; assumption.
  - rewrite Hst. repeat split; assumption.
Qed.

(** X2. Until the models have loaded no inference call is made,
    whatever is edited, clicked or reset: no session is stored, no
    decoder or dynamics call is in flight and the step buttons are
    disabled. *)
Theorem no_inference_before_load (e : Engine) (evs : list event) :
  unloaded e -> forallb (fun ev => negb (is_models_loaded ev)) evs = true ->
  unloaded (run evs e) /\ disabled (st (run evs e)) = true.
Proof.
  revert e. induction evs as [|ev evs IH]; intros e Hu Hall.
  - split; [exact Hu|]. apply disabled_without_decoder. apply Hu.
  - cbn [forallb] in Hall. apply andb_true_iff in Hall as [Hev Hall].
    apply negb_true_iff in Hev.
    exact (IH (dispatch ev e) (unloaded_step ev e Hev Hu) Hall).
Qed.

Lemma mount_unloaded : unloaded mount.
Proof. repeat split. Defined.

Lemma no_inference_before_load_witness :
  let e := run [SliderInput 0 120; ClickAction LEFT; ClickReset; DecodeSettles 0] mount in
  unloaded e /\ disabled (st e) = true.
Proof.
  exact (no_inference_before_load mount
           [SliderInput 0 120; ClickAction LEFT; ClickReset; DecodeSettles 0]
           mount_unloaded eq_refl).
Defined.

Lemma failed_step (ev : event) (e : Engine) (msg : string) :
  unloaded e /\ loading (st e) = false /\ error (st e) = Some msg ->
  unloaded (dispatch ev e) /\ loading (st (dispatch ev e)) = false
  /\ error (st (dispatch ev e)) = Some msg.
Proof.
  intros (Hu & Hl & He).
  destruct (is_models_loaded ev) eqn:Hev.
  - destruct ev; try discriminate. cbn [dispatch]. rewrite Hl. auto.
  - split; [exact (unloaded_step ev e Hev Hu)|].
    destruct Hu as (Hd & Hls & Hdec & Hst).
    destruct ev as [dec lstm|m|i k|a| |id|id]; try discriminate; cbn [dispatch].
    + rewrite Hl. auto.
    + destruct (decide _); [|auto]. unfold handleSliderChange.
      rewrite commit_st. auto.
    + rewrite (disabled_without_decoder _ Hd). auto.
    + unfold resetLatentAndHidden. rewrite commit_st. auto.
    + rewrite Hdec. auto.
    + rewrite Hst. auto.
Qed.

(** X3. When loading the models fails, the message is stored and
    stays; from then on, whatever happens, no session is stored, no
    inference call is made and the step buttons stay disabled. *)
Theorem load_failure_is_final (e : Engine) (msg : string) (evs : list event) :
  unloaded e -> loading (st e) = true ->
  let e' := run evs (dispatch (ModelsFailed msg) e) in
  unloaded e' /\ loading (st e') = false /\ disabled (st e') = true
  /\ error (st e') = Some msg.
Proof.
  intros Hu Hl. cbn zeta.
  assert (H0 : unloaded (dispatch (ModelsFailed msg) e)
               /\ loading (st (dispatch (ModelsFailed msg) e)) = false
               /\ error (st (dispatch (ModelsFailed msg) e)) = Some msg).
  { split; [exact (unloaded_step (ModelsFailed msg) e eq_refl Hu)|].
    cbn [dispatch]. rewrite Hl, commit_st. auto. }
  generalize dependent (dispatch (ModelsFailed msg) e). clear e Hu Hl.
  induction evs as [|ev evs IH]; intros e H0.
  - destruct H0 as (Hu & Hl & He). split; [exact Hu|]. split; [exact Hl|].
    split; [apply disabled_without_decoder, Hu|exact He].
  - exact (IH (dispatch ev e) (failed_step ev e msg H0)).
Qed.

Lemma load_failure_is_final_witness :
  let e' := run [ModelsLoaded Mock.decoderFlat Mock.lstmOnes; SliderInput 1 0;
                 ClickAction RIGHT]
              (dispatch (ModelsFailed "Error: no such file") mount) in
  unloaded e' /\ loading (st e') = false /\ disabled (st e') = true
  /\ error (st e') = Some "Error: no such file".
Proof.
  exact (load_failure_is_final mount "Error: no such file"
           [ModelsLoaded Mock.decoderFlat Mock.lstmOnes; SliderInput 1 0;
            ClickAction RIGHT] mount_unloaded eq_refl).
Defined.

End Loading.

(** ** What tasks leave alone *)

Section Tasks.
Import JS Ort Engine Facts.

Lemma run_app (evs1 evs2 : list event) (e : Engine) :
  run (evs1 ++ evs2) e = run evs2 (run evs1 e).
Proof. unfold run. apply fold_left_app. Qed.

Lemma run_cons (ev : event) (evs : list event) (e : Engine) :
  run (ev :: evs) e = run evs (dispatch ev e).
Proof. reflexivity. Qed.

(** X4. A decoder call that settles is taken out of the calls in
    flight and makes no new call; it writes neither the latent nor the
    recurrent state, sessions or loading flag. When it was rejected, or
    answered without [x_recon], both canvases keep the frame they had and
    the message is stored. *)
Theorem settled_decode_draws_or_reports (e : Engine) (id : nat) (c : Call)
  (rest : list Call) :
  take_call id (decodes e) = Some (c, rest) ->
  let e' := dispatch (DecodeSettles id) e in
  engine_state e' = engine_state e
  /\ decoderSession (st e') = decoderSession (st e)
  /\ lstmSession (st e') = lstmSession (st e)
  /\ loading (st e') = loading (st e)
  /\ decodes e' = rest
  /\ steps e' = steps e
  /\ (forall msg,
        call_outcome c = Throw msg
        \/ (exists outputs, call_outcome c = Ok outputs
                            /\ outputs !! "x_recon" = None /\ msg = undefined_data) ->
        smallCanvas e' = smallCanvas e /\ bigCanvas e' = bigCanvas e
        /\ error (st e') = Some msg).
Proof.
  intros Ht. cbn zeta. cbn [dispatch]. rewrite Ht.
  set (e0 := with_decodes rest (nextId e) e).
  destruct (decodeSettled_keeps (call_outcome c) e0) as (Hst & Hsteps & Hdec).
  split; [exact (decodeSettled_engine_state (call_outcome c) e0)|].
  assert (Hflags : decoderSession (st (decodeSettled (call_outcome c) e0))
                   = decoderSession (st e)
                   /\ lstmSession (st (decodeSettled (call_outcome c) e0))
                      = lstmSession (st e)
                   /\ loading (st (decodeSettled (call_outcome c) e0)) = loading (st e)).
  { rewrite Hst. destruct (decodeSettled_error _ _); auto. }
  destruct Hflags as (H1 & H2 & H3).
  split; [exact H1|]. split; [exact H2|]. split; [exact H3|].
  split; [exact Hdec|]. split; [exact Hsteps|].
  intros msg [Hthrow|(outputs & Hok & Hx & ->)].
  - rewrite Hthrow. auto.
  - rewrite Hok. unfold decodeSettled, output_data. rewrite Hx. auto.
Qed.

Lemma settled_decode_draws_or_reports_witness :
  let e := dispatch
             (ModelsLoaded (fun _ => Throw "Error: decoder failed") Mock.lstmOnes)
             mount in
  let e' := dispatch (DecodeSettles 0) e in
  smallCanvas e' = smallCanvas e /\ bigCanvas e' = bigCanvas e
  /\ error (st e') = Some "Error: decoder failed" /\ decodes e' = [].
Proof.
  cbn zeta.
  set (e := dispatch
              (ModelsLoaded (fun _ => Throw "Error: decoder failed") Mock.lstmOnes)
              mount).
  destruct (settled_decode_draws_or_reports e 0
              {| call_id := 0; call_feeds := decodeFeeds zeroLatent;
                 call_outcome := Throw "Error: decoder failed" |} [] eq_refl)
    as (_ & _ & _ & _ & Hd & _ & H).
  destruct (H "Error: decoder failed" (or_introl eq_refl)) as (Hs & Hb & He).
  split; [exact Hs|]. split; [exact Hb|]. split; [exact He|exact Hd].
Defined.

(** X5. No task clears the error cell: a message that has been
    reported stays, or is replaced by a later message, whatever
    follows. *)
Theorem error_message_never_cleared (e : Engine) (evs : list event) :
  is_Some (error (st e)) -> is_Some (error (st (run evs e))).
Proof.
  revert e. induction evs as [|ev evs IH]; intros e He; [exact He|].
  rewrite run_cons. apply IH.
  destruct (dispatch_st ev e) as (us & -> & _).
  apply apply_updates_error, He.
Qed.

Lemma error_message_never_cleared_witness :
  is_Some (error (st (run [ClickReset; SliderInput 0 3; ClickAction LEFT; StepSettles 1]
                        (dispatch (ModelsFailed "Error: no such file") mount)))).
Proof.
  apply (error_message_never_cleared
           (dispatch (ModelsFailed "Error: no such file") mount)).
  eexists. reflexivity.
Defined.

(** X6. Once loading is over, no task changes a session or the loading
    flag: step buttons that are enabled stay enabled, whatever fails
    afterwards. *)
Theorem enabled_buttons_stay_enabled (e : Engine) (evs : list event) :
  disabled (st e) = false ->
  disabled (st (run evs e)) = false
  /\ decoderSession (st (run evs e)) = decoderSession (st e)
  /\ lstmSession (st (run evs e)) = lstmSession (st e)
  /\ loading (st (run evs e)) = false.
Proof.
  intros Hen. destruct (enabled_inv _ Hen) as (Hl & _ & _).
  assert (H : decoderSession (st (run evs e)) = decoderSession (st e)
              /\ lstmSession (st (run evs e)) = lstmSession (st e)
              /\ loading (st (run evs e)) = loading (st e)).
  { clear Hen. revert e Hl. induction evs as [|ev evs IH]; intros e Hl; [auto|].
    rewrite run_cons.
    destruct (dispatch_st ev e) as (us & Hst & Hus).
    destruct (apply_updates_keeps_flags us (st e) (Hus Hl)) as (Hd' & Hl' & Hlo').
    rewrite <- Hst in Hd', Hl', Hlo'.
    destruct (IH (dispatch ev e)) as (-> & -> & ->); [congruence|auto]. }
  destruct H as (Hd & Hls & Hlo).
  split; [|split; [exact Hd|split; [exact Hls|congruence]]].
  unfold disabled in Hen |- *. rewrite Hd, Hls, Hlo. exact Hen.
Qed.

Lemma enabled_buttons_stay_enabled_witness :
  disabled (st (run [ClickAction LEFT; StepSettles 1; ModelsFailed "late"; DecodeSettles 0]
                  (Mock.loaded Mock.lstmFails))) = false.
Proof.
  apply (enabled_buttons_stay_enabled (Mock.loaded Mock.lstmFails)).
  reflexivity.
Defined.

End Tasks.

(** ** Steps that overlap with other requests *)

Section Overlap.
Import JS Ort Engine Facts.

Lemma take_call_app_l (id : nat) (cs extra rest : list Call) (c : Call) :
  take_call id cs = Some (c, rest) ->
  take_call id (cs ++ extra) = Some (c, rest ++ extra).
Proof.
  revert rest. induction cs as [|c' cs IH]; intros rest Ht; [discriminate|].
  cbn [take_call app] in Ht |- *. destruct (decide (call_id c' = id)).
  - injection Ht as <- <-. reflexivity.
  - destruct (take_call id cs) as [[c0 r0]|]; [|discriminate].
    injection Ht as <- <-. rewrite (IH r0 eq_refl). reflexivity.
Qed.

(** A task that is not the settlement of a dynamics call only adds to
    the dynamics calls in flight. *)
Lemma steps_only_grow (ev : event) (e : Engine) :
  is_step_settle ev = false -> exists extra, steps (dispatch ev e) = steps e ++ extra.
Proof.
  intros Hev. destruct ev as [dec lstm|msg|i k|a| |id|id]; try discriminate;
    cbn [dispatch].
  - exists []. rewrite app_nil_r. destruct (loading (st e)); [apply commit_steps|reflexivity].
  - exists []. rewrite app_nil_r. destruct (loading (st e)); [apply commit_steps|reflexivity].
  - exists []. rewrite app_nil_r. destruct (decide _); [apply commit_steps|reflexivity].
  - destruct (disabled (st e)); [exists []; rewrite app_nil_r; reflexivity|].
    unfold stepWithAction.
    destruct (lstmSession (st e)); [|exists []; rewrite app_nil_r; reflexivity].
    destruct (stepFeeds _ _); [eexists; reflexivity|].
    exists []. rewrite app_nil_r. apply commit_steps.
  - exists []. rewrite app_nil_r. apply commit_steps.
  - exists []. rewrite app_nil_r.
    destruct (take_call id (decodes e)) as [[c rest]|]; [|reflexivity].
    destruct (decodeSettled_keeps (call_outcome c) (with_decodes rest (nextId e) e))
      as (_ & -> & _). reflexivity.
Qed.

Lemma steps_only_grow_run (evs : list event) (e : Engine) :
  forallb (fun ev => negb (is_step_settle ev)) evs = true ->
  exists extra, steps (run evs e) = steps e ++ extra.
Proof.
  revert e. induction evs as [|ev evs IH]; intros e Hall.
  - exists []. rewrite app_nil_r. reflexivity.
  - cbn [forallb] in Hall. apply andb_true_iff in Hall as [Hev Hall].
    apply negb_true_iff in Hev.
    destruct (steps_only_grow ev e Hev) as [x1 H1].
    destruct (IH (dispatch ev e) Hall) as [x2 H2].
    exists (x1 ++ x2). rewrite run_cons, H2, H1, app_assoc. reflexivity.
Qed.

(** X7. A step is computed from the latent and state at the click. An
    edit, a reset or a further click made while its call is in flight
    does not reach the model, and when the call answers its outputs
    replace latent and recurrent state, overwriting what was done in
    between. *)
Theorem step_answer_overwrites_later_requests (e : Engine) (a : ActionCode)
  (lstm : Session) (feeds outputs : gmap string Tensor) (nl h1 c1 : Tensor)
  (evs : list event) :
  well_formed e -> disabled (st e) = false -> lstmSession (st e) = Some lstm ->
  stepFeeds (action_value a) (st e) = Ok feeds -> lstm feeds = Ok outputs ->
  outputs !! "next_latent" = Some nl -> outputs !! "h1" = Some h1 ->
  outputs !! "c1" = Some c1 ->
  forallb (fun ev => negb (is_step_settle ev)) evs = true ->
  engine_state (run (ClickAction a :: evs ++ [StepSettles (nextId e)]) e)
  = (data nl, Some (fround <$> data h1), Some (fround <$> data c1)).
Proof.
  intros Hwf Hen Hl Hf Hout Hnl Hh1 Hc1 Hevs.
  rewrite run_cons, run_app.
  destruct (click_then_settle e a lstm feeds Hwf Hen Hl Hf) as [H1 _].
  cbn zeta in H1.
  set (c := {| call_id := nextId e; call_feeds := feeds; call_outcome := lstm feeds |}) in *.
  destruct (steps_only_grow_run evs (dispatch (ClickAction a) e) Hevs) as [extra Hsteps].
  assert (Htake : take_call (nextId e) (steps (run evs (dispatch (ClickAction a) e)))
                  = Some (c, steps e ++ extra)).
  { rewrite Hsteps, H1. cbn [steps with_steps].
    apply take_call_app_l, take_call_fresh; [apply Hwf|reflexivity]. }
  unfold run at 1. cbn [fold_left].
  rewrite (step_answered _ (nextId e) c _ outputs nl h1 c1 Htake Hout Hnl Hh1 Hc1).
  rewrite engine_state_commit. reflexivity.
Qed.

Lemma step_answer_overwrites_later_requests_witness :
  engine_state (run [ClickAction LEFT; SliderInput 2 0; ClickReset; StepSettles 1]
                  (Mock.loaded Mock.lstmOnes))
  = (Mock.unitLatent, Some (fround <$> Mock.ones 256), Some (fround <$> Mock.ones 256)).
Proof.
  destruct (loaded_ready Mock.lstmOnes) as (Hwf & Hen & Hl & _ & Hid & _).
  pose proof (step_answer_overwrites_later_requests (Mock.loaded Mock.lstmOnes) LEFT
                Mock.lstmOnes _ _ _ _ _ [SliderInput 2 0; ClickReset] Hwf Hen Hl
                (cold_feeds (action_value LEFT) (st (Mock.loaded Mock.lstmOnes)) eq_refl)
                eq_refl eq_refl eq_refl eq_refl eq_refl) as H.
  rewrite Hid in H. exact H.
Defined.

(** X8. Two clicks in a row, the second before the first call has
    answered, send the model the same tensors twice; once both calls
    have answered the engine is where a single step would have left it:
    the latent advances by one step, not two. *)
Theorem double_click_advances_once (e : Engine) (a : ActionCode) (lstm : Session)
  (feeds outputs : gmap string Tensor) (nl h1 c1 : Tensor) :
  well_formed e -> disabled (st e) = false -> lstmSession (st e) = Some lstm ->
  stepFeeds (action_value a) (st e) = Ok feeds -> lstm feeds = Ok outputs ->
  outputs !! "next_latent" = Some nl -> outputs !! "h1" = Some h1 ->
  outputs !! "c1" = Some c1 ->
  let n := nextId e in
  call_feeds <$> steps (run [ClickAction a; ClickAction a] e)
  = (call_feeds <$> steps e) ++ [feeds; feeds]
  /\ engine_state (run [ClickAction a; ClickAction a; StepSettles n; StepSettles (S n)] e)
     = engine_state (run [ClickAction a; StepSettles n] e)
  /\ engine_state (run [ClickAction a; StepSettles n] e)
     = (data nl, Some (fround <$> data h1), Some (fround <$> data c1)).
Proof.
  intros Hwf Hen Hl Hf Hout Hnl Hh1 Hc1. cbn zeta.
  destruct (click_then_settle e a lstm feeds Hwf Hen Hl Hf) as [H1 H1s].
  cbn zeta in H1, H1s.
  set (c0 := {| call_id := nextId e; call_feeds := feeds; call_outcome := lstm feeds |}) in *.
  set (e1 := with_steps (steps e ++ [c0]) (S (nextId e)) e) in *.
  set (c1' := {| call_id := S (nextId e); call_feeds := feeds; call_outcome := lstm feeds |}).
  assert (H2 : dispatch (ClickAction a) e1
               = with_steps ((steps e ++ [c0]) ++ [c1']) (S (S (nextId e))) e1).
  { cbn [dispatch]. change (disabled (st e1)) with (disabled (st e)). rewrite Hen.
    exact (stepWithAction_issues (action_value a) e1 lstm feeds Hl Hf). }
  assert (Hone : engine_state (run [ClickAction a; StepSettles (nextId e)] e)
                 = (data nl, Some (fround <$> data h1), Some (fround <$> data c1))).
  { unfold run. cbn [fold_left]. rewrite H1s, Hout,
      (stepSettled_complete outputs nl h1 c1 Hnl Hh1 Hc1), engine_state_commit.
    reflexivity. }
  split; [|split; [|exact Hone]].
  - unfold run. cbn [fold_left]. rewrite H1, H2. cbn [steps with_steps].
    rewrite <- app_assoc, fmap_app. reflexivity.
  - rewrite Hone. unfold run. cbn [fold_left]. rewrite H1, H2.
    assert (T1 : take_call (nextId e)
                   (steps (with_steps ((steps e ++ [c0]) ++ [c1']) (S (S (nextId e))) e1))
                 = Some (c0, steps e ++ [c1'])).
    { cbn [steps with_steps].
      apply take_call_app_l, take_call_fresh; [apply Hwf|reflexivity]. }
    rewrite (step_answered _ (nextId e) c0 _ outputs nl h1 c1 T1 Hout Hnl Hh1 Hc1).
    set (e3 := commit _ _).
    assert (T2 : take_call (S (nextId e)) (steps e3) = Some (c1', steps e)).
    { unfold e3. rewrite commit_steps. cbn [steps with_steps].
      apply take_call_fresh; [apply Forall_lt_S, Hwf|reflexivity]. }
    rewrite (step_answered e3 (S (nextId e)) c1' _ outputs nl h1 c1 T2 Hout Hnl Hh1 Hc1).
    rewrite engine_state_commit. reflexivity.
Qed.

Lemma double_click_advances_once_witness :
  engine_state (run [ClickAction RIGHT; ClickAction RIGHT; StepSettles 1; StepSettles 2]
                  (Mock.loaded Mock.lstmOnes))
  = engine_state (run [ClickAction RIGHT; StepSettles 1] (Mock.loaded Mock.lstmOnes)).
Proof.
  destruct (loaded_ready Mock.lstmOnes) as (Hwf & Hen & Hl & _ & Hid & _).
  destruct (double_click_advances_once (Mock.loaded Mock.lstmOnes) RIGHT
              Mock.lstmOnes _ _ _ _ _ Hwf Hen Hl
              (cold_feeds (action_value RIGHT) (st (Mock.loaded Mock.lstmOnes)) eq_refl)
              eq_refl eq_refl eq_refl eq_refl) as (_ & H & _).
  cbn zeta in H. rewrite Hid in H. exact H.
Defined.

(** X9. A click on an enabled step button makes a dynamics call exactly
    when the stored hidden and cell buffers (zeros when absent) have
    2*1*128 entries each; otherwise building the tensors throws, no call
    is made, latent and recurrent state stay and the message is
    reported. *)
Theorem click_calls_model_iff_state_sized (e : Engine) (a : ActionCode)
  (lstm : Session) (hArr cArr : list number) :
  disabled (st e) = false -> lstmSession (st e) = Some lstm ->
  hidden_buffers (st e) = (hArr, cArr) ->
  let e' := dispatch (ClickAction a) e in
  (length hArr = 256%nat /\ length cArr = 256%nat ->
   let feeds := stepCallFeeds (latent (st e)) (action_value a) hArr cArr in
   e' = with_steps
          (steps e ++
             [{| call_id := nextId e; call_feeds := feeds; call_outcome := lstm feeds |}])
          (S (nextId e)) e)
  /\ (~ (length hArr = 256%nat /\ length cArr = 256%nat) ->
      exists msg, e' = with_st (apply_update (st e) (setError msg)) e).
Proof.
  intros Hen Hl Hb. cbn zeta. cbn [dispatch]. rewrite Hen. split.
  - intros [Hh Hc]. apply stepWithAction_issues; [exact Hl|].
    apply stepFeeds_ok; assumption.
  - intros Hbad. unfold stepWithAction. rewrite Hl.
    destruct (stepFeeds (action_value a) (st e)) as [feeds|msg] eqn:Hf.
    + exfalso. apply Hbad. destruct (stepFeeds_inv _ _ _ Hf) as (Hh & Hc & _).
      rewrite Hb in Hh, Hc. auto.
    + exists msg. reflexivity.
Qed.

Lemma click_calls_model_iff_state_sized_witness :
  let e := with_hidden (Some [of_Z 0]) (Some (zeros 256)) (Mock.loaded Mock.lstmOnes) in
  exists msg, dispatch (ClickAction LEFT) e
              = with_st (apply_update (st e) (setError msg)) e.
Proof.
  cbn zeta.
  destruct (click_calls_model_iff_state_sized
              (with_hidden (Some [of_Z 0]) (Some (zeros 256)) (Mock.loaded Mock.lstmOnes))
              LEFT Mock.lstmOnes [of_Z 0] (zeros 256) eq_refl eq_refl eq_refl)
    as [_ H].
  apply H. intros [Hh _]. discriminate Hh.
Defined.

End Overlap.

(** ** Shapes kept under a model that follows the contract *)

Section Shapes.
Import JS Ort Engine Facts.

Lemma data_shaped_same (s s' : State) :
  latent s' = latent s -> hData s' = hData s -> cData s' = cData s ->
  data_shaped s -> data_shaped s'.
Proof. unfold data_shaped. intros -> -> ->. auto. Qed.

Lemma conforming_commit_quiet (us : list update) (e : Engine) :
  latent (apply_updates us (st e)) = latent (st e) ->
  hData (apply_updates us (st e)) = hData (st e) ->
  cData (apply_updates us (st e)) = cData (st e) ->
  lstmSession (apply_updates us (st e)) = lstmSession (st e) ->
  conforming e -> conforming (commit us e).
Proof.
  intros Hl Hh Hc Hs (Hd & Hm & Hf). unfold conforming.
  rewrite commit_st, commit_steps, Hs.
  split; [exact (data_shaped_same _ _ Hl Hh Hc Hd)|]. auto.
Qed.

Lemma conforming_step (ev : event) (e : Engine) :
  match ev with
  | ModelsLoaded _ lstm => session_conforms lstm
  | _ => True
  end ->
  conforming e -> conforming (dispatch ev e).
Proof.
  intros Hev Hc. pose proof Hc as (Hd & Hm & Hf).
  destruct ev as [dec lstm|msg|i k|a| |id|id]; cbn [dispatch].
  - destruct (loading (st e)); [|exact Hc]. unfold conforming.
    rewrite commit_st, commit_steps.
    split; [exact (data_shaped_same _ _ eq_refl eq_refl eq_refl Hd)|].
    split; [|exact Hf]. intros l [= <-]. exact Hev.
  - destruct (loading (st e)); [|exact Hc].
    apply conforming_commit_quiet; auto.
  - destruct (decide _) as [Hi|]; [|exact Hc]. unfold handleSliderChange, conforming.
    rewrite commit_st, commit_steps.
    split; [|split; [exact Hm|exact Hf]].
    destruct Hd as [Hlen Hhc]. split; [|exact Hhc].
    cbn [apply_updates fold_left apply_update latent]. unfold array_set.
    destruct (decide _); [|contradiction]. rewrite length_insert. exact Hlen.
  - destruct (disabled (st e)); [exact Hc|]. unfold stepWithAction.
    destruct (lstmSession (st e)) as [lstm|] eqn:Hl; [|exact Hc].
    destruct (stepFeeds _ _) as [feeds|msg].
    + split; [exact Hd|]. split; [cbn; rewrite Hl; exact Hm|]. cbn [steps with_steps].
      apply Forall_app. split; [exact Hf|]. constructor; [|constructor].
      cbn [call_outcome]. exact (Hm lstm eq_refl feeds).
    + apply conforming_commit_quiet; auto.
  - unfold resetLatentAndHidden, conforming. rewrite commit_st, commit_steps.
    split; [|split; [exact Hm|exact Hf]].
    split; [reflexivity|]. left. split; reflexivity.
  - destruct (take_call id (decodes e)) as [[c rest]|]; [|exact Hc].
    destruct (decodeSettled_keeps (call_outcome c) (with_decodes rest (nextId e) e))
      as (Hst & Hsteps & _).
    unfold conforming. rewrite Hst, Hsteps.
    destruct (decodeSettled_error _ _); split; auto.
  - destruct (take_call id (steps e)) as [[c rest]|] eqn:Ht; [|exact Hc].
    destruct (take_call_Forall _ _ _ _ _ Ht Hf) as [Hans Hrest].
    unfold conforming. rewrite commit_st, commit_steps. cbn [steps with_steps st].
    destruct (call_outcome c) as [outputs|msg].
    + destruct Hans as (nl & h1 & c1 & Hn & Hh & Hcc & Ln & Lh & Lc).
      rewrite (stepSettled_complete outputs nl h1 c1 Hn Hh Hcc).
      split; [|split; [exact Hm|exact Hrest]].
      split; [exact Ln|]. right.
      exists (fround <$> data h1), (fround <$> data c1).
      rewrite !length_fmap. auto.
    + split; [exact Hd|]. split; [exact Hm|exact Hrest].
Qed.

Lemma conforming_run (evs : list event) (e : Engine) :
  events_conform evs -> conforming e -> conforming (run evs e).
Proof.
  revert e. induction evs as [|ev evs IH]; intros e Hevs Hc; [exact Hc|].
  inversion Hevs as [|? ? Hev Hrest]; subst.
  rewrite run_cons. apply IH; [exact Hrest|]. apply conforming_step; assumption.
Qed.

Lemma mount_conforming : conforming mount.
Proof.
  split; [split; [reflexivity|left; split; reflexivity]|].
  split; [intros l Hl; discriminate Hl|constructor].
Qed.

(** X10. As long as every dynamics model that loads answers with a
    [next_latent] of 16 entries and [h1], [c1] of 256 entries each, the
    engine keeps its shape whatever is requested and in whatever order
    the calls answer: the latent has 16 components (so 16 sliders are
    rendered), hidden and cell state are both absent or both of 256
    entries, and a click on an enabled step button always puts a call in
    flight and never reports a tensor size. *)
Theorem contract_shapes_are_kept (evs : list event) :
  events_conform evs ->
  let e := run evs mount in
  length (latent (st e)) = 16%nat
  /\ length (Render.labels (st e)) = 16%nat
  /\ ((hData (st e) = None /\ cData (st e) = None)
      \/ exists h c, hData (st e) = Some h /\ cData (st e) = Some c
                     /\ length h = 256%nat /\ length c = 256%nat)
  /\ (disabled (st e) = false ->
      forall a, exists lstm feeds,
        lstmSession (st e) = Some lstm
        /\ dispatch (ClickAction a) e
           = with_steps
               (steps e ++
                  [{| call_id := nextId e; call_feeds := feeds;
                      call_outcome := lstm feeds |}])
               (S (nextId e)) e).
Proof.
  intros Hevs. cbn zeta.
  destruct (conforming_run evs mount Hevs mount_conforming) as ((Hlen & Hhc) & _ & _).
  set (e := run evs mount) in *.
  split; [exact Hlen|].
  split; [unfold Render.labels; rewrite length_imap; exact Hlen|].
  split; [exact Hhc|].
  intros Hen a. destruct (enabled_inv _ Hen) as (_ & _ & [lstm Hl]).
  assert (Hb : exists hArr cArr, hidden_buffers (st e) = (hArr, cArr)
                                 /\ length hArr = 256%nat /\ length cArr = 256%nat).
  { destruct Hhc as [[Hh Hc]|(h & c & Hh & Hc & Lh & Lc)].
    - exists (zeros 256), (zeros 256).
      split; [apply hidden_buffers_absent; auto|]. split; apply zeros_length.
    - exists h, c. unfold hidden_buffers. rewrite Hh, Hc. auto. }
  destruct Hb as (hArr & cArr & Hb & Lh & Lc).
  exists lstm, (stepCallFeeds (latent (st e)) (action_value a) hArr cArr).
  split; [exact Hl|]. cbn [dispatch]. rewrite Hen.
  apply stepWithAction_issues; [exact Hl|]. apply stepFeeds_ok; assumption.
Qed.

Lemma lstmOnes_conforms : session_conforms Mock.lstmOnes.
Proof.
  intros feeds. unfold answer_conforms, Mock.lstmOnes.
  exists {| data := Mock.unitLatent; dims := [1%nat; LATENT_DIM] |},
         {| data := Mock.ones 256; dims := [NUM_LAYERS; 1%nat; HIDDEN_DIM] |},
         {| data := Mock.ones 256; dims := [NUM_LAYERS; 1%nat; HIDDEN_DIM] |}.
  split; [reflexivity|]. split; [reflexivity|]. split; [reflexivity|].
  split; [reflexivity|]. split; apply length_replicate.
Defined.

Lemma contract_shapes_are_kept_witness :
  let e := run [ModelsLoaded Mock.decoderFlat Mock.lstmOnes; ClickAction LEFT;
                SliderInput 4 9; StepSettles 1] mount in
  length (latent (st e)) = 16%nat /\ length (Render.labels (st e)) = 16%nat.
Proof.
  cbn zeta.
  assert (Hevs : events_conform
                   [ModelsLoaded Mock.decoderFlat Mock.lstmOnes; ClickAction LEFT;
                    SliderInput 4 9; StepSettles 1]).
  { constructor; [exact lstmOnes_conforms|].
    constructor; [exact I|]. constructor; [exact I|].
    constructor; [exact I|constructor]. }
  destruct (contract_shapes_are_kept _ Hevs) as (H1 & H2 & _).
  split; [exact H1|exact H2].
Defined.

End Shapes.

(** ** The presented frame *)

Section Presentation.
Import JS Ort Engine Pixels Facts.

(** Chunks of equal length laid end to end. *)
Lemma flat_map_chunks {A : Type} (f : nat -> list A) (k n s : nat) :
  (forall i, (i < n)%nat -> length (f (s + i)%nat) = k) ->
  length (flat_map f (seq s n)) = (n * k)%nat
  /\ forall i j, (i < n)%nat -> (j < k)%nat ->
       flat_map f (seq s n) !! (i * k + j)%nat = f (s + i)%nat !! j.
Proof.
  revert s. induction n as [|n IH]; intros s Hlen.
  - split; [reflexivity|]. intros i j Hi. lia.
  - cbn [seq flat_map].
    assert (H0 : length (f s) = k).
    { rewrite <- (Nat.add_0_r s). apply Hlen. lia. }
    destruct (IH (S s)) as [IHl IHi].
    { intros i Hi. replace (S s + i)%nat with (s + S i)%nat by lia. apply Hlen. lia. }
    split.
    + rewrite length_app, IHl, H0. lia.
    + intros i j Hi Hj. destruct i as [|i].
      * rewrite lookup_app_l by lia. rewrite Nat.add_0_r. reflexivity.
      * rewrite lookup_app_r by lia. rewrite H0.
        replace (S i * k + j - k)%nat with (i * k + j)%nat by lia.
        rewrite IHi by lia. replace (S s + i)%nat with (s + S i)%nat by lia.
        reflexivity.
Qed.

Lemma scale_quotient (x w : nat) : (x < w * SCALE)%nat -> (x / SCALE < w)%nat.
Proof.
  intros H. apply Nat.Div0.div_lt_upper_bound. unfold SCALE in *. lia.
Qed.

Lemma source_chunk (w h : nat) (small : list Z) (X Y : nat) :
  length small = (w * h * 4)%nat -> (X < w * SCALE)%nat -> (Y < h * SCALE)%nat ->
  length (take 4 (drop (((Y / SCALE) * w + X / SCALE) * 4)%nat small)) = 4%nat
  /\ forall c, (c < 4)%nat ->
       take 4 (drop (((Y / SCALE) * w + X / SCALE) * 4)%nat small) !! c
       = small !! (((Y / SCALE) * w + X / SCALE) * 4 + c)%nat.
Proof.
  intros Hlen HX HY.
  pose proof (scale_quotient X w HX) as Hx. pose proof (scale_quotient Y h HY) as Hy.
  set (qx := (X / SCALE)%nat) in *. set (qy := (Y / SCALE)%nat) in *.
  assert (Hoff : ((qy * w + qx) * 4 + 4 <= w * h * 4)%nat) by nia.
  split.
  - rewrite length_take_le; [reflexivity|]. rewrite length_drop. lia.
  - intros c Hc. rewrite lookup_take_lt by exact Hc. apply lookup_drop.
Qed.

(** The upscaled canvas, byte by byte. *)
Lemma drawImage_lookup (w h : nat) (small : list Z) (X Y c : nat) :
  length small = (w * h * 4)%nat ->
  (X < w * SCALE)%nat -> (Y < h * SCALE)%nat -> (c < 4)%nat ->
  drawImage w h small !! ((Y * (w * SCALE) + X) * 4 + c)%nat
  = small !! (((Y / SCALE) * w + X / SCALE) * 4 + c)%nat
  /\ length (drawImage w h small) = (w * SCALE * (h * SCALE) * 4)%nat.
Proof.
  intros Hlen HX HY Hc.
  pose (chunk := fun Y X : nat =>
                   take 4 (drop (((Y / SCALE) * w + X / SCALE) * 4)%nat small)).
  pose (row := fun Y : nat => flat_map (chunk Y) (seq 0 (w * SCALE)%nat)).
  change (drawImage w h small) with (flat_map row (seq 0 (h * SCALE)%nat)).
  assert (Hrow : forall Y', (Y' < h * SCALE)%nat ->
             length (row Y') = (w * SCALE * 4)%nat
             /\ forall X' c', (X' < w * SCALE)%nat -> (c' < 4)%nat ->
                  row Y' !! (X' * 4 + c')%nat
                  = small !! (((Y' / SCALE) * w + X' / SCALE) * 4 + c')%nat).
  { intros Y' HY'.
    destruct (flat_map_chunks (chunk Y') 4 (w * SCALE) 0) as [Hl Hi].
    { intros i Hi. apply (source_chunk w h small i Y' Hlen Hi HY'). }
    split; [exact Hl|]. intros X' c' HX' Hc'.
    unfold row. rewrite Hi by assumption. cbn [Nat.add].
    apply (source_chunk w h small X' Y' Hlen HX' HY'). exact Hc'. }
  destruct (flat_map_chunks row (w * SCALE * 4) (h * SCALE) 0) as [Hl Hi].
  { intros i Hi. apply Hrow. exact Hi. }
  split.
  - replace ((Y * (w * SCALE) + X) * 4 + c)%nat
      with (Y * (w * SCALE * 4) + (X * 4 + c))%nat by lia.
    rewrite Hi by (unfold SCALE in *; lia). cbn [Nat.add].
    apply (Hrow Y HY); assumption.
  - rewrite Hl. lia.
Qed.

(** X12. After a decode has answered, every pixel of the visible
    canvas shows the clamped, rounded value of the model pixel under it:
    the byte of channel [c] at column [X], row [Y] comes from plane [c]
    at row [Y / 4], column [X / 4] of the answer, so each model pixel is
    a block of 4 by 4 equal pixels. *)
Theorem displayed_pixel_is_model_pixel (e : Engine) (id : nat) (c : Call)
  (rest : list Call) (outputs : gmap string Tensor) (t : Tensor) (sc bc : list Z)
  (X Y ch : nat) :
  take_call id (decodes e) = Some (c, rest) -> call_outcome c = Ok outputs ->
  outputs !! "x_recon" = Some t ->
  smallCanvas e = Some sc -> bigCanvas e = Some bc ->
  (X < IMG_W * SCALE)%nat -> (Y < IMG_H * SCALE)%nat -> (ch < 4)%nat ->
  exists big,
    bigCanvas (dispatch (DecodeSettles id) e) = Some big
    /\ length big = (IMG_W * SCALE * (IMG_H * SCALE) * 4)%nat
    /\ big !! ((Y * (IMG_W * SCALE) + X) * 4 + ch)%nat
       = Some (interleaved (data t) ((Y / SCALE) * IMG_W + X / SCALE) ch).
Proof.
  intros Ht Hc Hx Hs Hb HX HY Hch.
  exists (drawImage IMG_W IMG_H (toRGBA (data t))).
  assert (Hlen : length (toRGBA (data t)) = (IMG_W * IMG_H * 4)%nat).
  { rewrite toRGBA_length. reflexivity. }
  destruct (drawImage_lookup IMG_W IMG_H (toRGBA (data t)) X Y ch
              Hlen HX HY Hch) as [Hpix Hl].
  split; [|split; [exact Hl|]].
  - cbn [dispatch]. rewrite Ht, Hc.
    rewrite (decode_answered (with_decodes rest (nextId e) e) outputs t sc bc Hx Hs Hb).
    reflexivity.
  - rewrite Hpix. apply toRGBA_lookup; [|exact Hch].
    pose proof (scale_quotient X IMG_W HX). pose proof (scale_quotient Y IMG_H HY).
    unfold planeSize. nia.
Qed.

Lemma displayed_pixel_is_model_pixel_witness :
  let e := Mock.loaded Mock.lstmOnes in
  exists big,
    bigCanvas (dispatch (DecodeSettles 0) e) = Some big
    /\ length big = (IMG_W * SCALE * (IMG_H * SCALE) * 4)%nat
    /\ big !! ((5 * (IMG_W * SCALE) + 7) * 4 + 3)%nat
       = Some (interleaved (data (Mock.flatFrame (toFloat32Array LATENT_DIM zeroLatent)))
                 ((5 / SCALE) * IMG_W + 7 / SCALE) 3).
Proof.
  cbn zeta.
  assert (H7 : (7 < IMG_W * SCALE)%nat) by (unfold IMG_W, SCALE; lia).
  assert (H5 : (5 < IMG_H * SCALE)%nat) by (unfold IMG_H, SCALE; lia).
  assert (H3 : (3 < 4)%nat) by lia.
  exact (displayed_pixel_is_model_pixel (Mock.loaded Mock.lstmOnes) 0
           {| call_id := 0; call_feeds := decodeFeeds zeroLatent;
              call_outcome := Mock.decoderFlat (decodeFeeds zeroLatent) |}
           [] _ _ _ _ 7 5 3 eq_refl (decoderFlat_answer zeroLatent)
           (flatFrame_lookup _) eq_refl eq_refl H7 H5 H3).
Defined.

Lemma channelByte_NaN : channelByte NaN = 0.
Proof. reflexivity. Qed.

Lemma get_take (n i : nat) (d : list number) :
  (i < n)%nat -> get (take n d) i = get d i.
Proof. intros H. unfold get. rewrite lookup_take_lt by exact H. reflexivity. Qed.

(** X13. The conversion reads the first 3*96*96 values of the decoder
    output and nothing else: values past them are ignored, and where the
    output is too short the missing value reads as NaN and paints the
    byte 0, so a short or empty output gives a partly or fully black,
    opaque frame and never a throw. *)
Theorem short_output_paints_black (d : list number) :
  toRGBA (take (3 * planeSize) d) = toRGBA d
  /\ (forall p c, (p < planeSize)%nat -> (c < 3)%nat ->
        (length d <= c * planeSize + p)%nat ->
        toRGBA d !! (p * 4 + c)%nat = Some 0)
  /\ (forall p, (p < planeSize)%nat ->
        toRGBA [] !! (p * 4 + 0)%nat = Some 0
        /\ toRGBA [] !! (p * 4 + 1)%nat = Some 0
        /\ toRGBA [] !! (p * 4 + 2)%nat = Some 0
        /\ toRGBA [] !! (p * 4 + 3)%nat = Some 255).
Proof.
  assert (Hshort : forall d' p c, (p < planeSize)%nat -> (c < 3)%nat ->
             (length d' <= c * planeSize + p)%nat ->
             toRGBA d' !! (p * 4 + c)%nat = Some 0).
  { intros d' p c Hp Hc Hlen. rewrite toRGBA_lookup by lia.
    assert (Hget : get d' (c * planeSize + p) = NaN).
    { unfold get. rewrite (lookup_ge_None_2 d') by exact Hlen. reflexivity. }
    destruct c as [|[|[|c]]]; [| | |lia]; unfold interleaved;
      rewrite Hget; apply f_equal, channelByte_NaN. }
  split; [|split; [exact (Hshort d)|]].
  - apply list_eq. intros k.
    destruct (decide (k < planeSize * 4)%nat) as [Hk|Hk].
    + pose proof (Nat.div_mod_eq k 4) as Hdm.
      assert (Hr : (k mod 4 < 4)%nat) by (apply Nat.mod_upper_bound; lia).
      replace k with ((k / 4) * 4 + k mod 4)%nat by lia.
      assert (Hq : (k / 4 < planeSize)%nat) by lia.
      rewrite !toRGBA_lookup by assumption.
      apply f_equal. unfold interleaved.
      destruct (k mod 4)%nat as [|[|[|r]]]; try reflexivity;
        rewrite get_take by lia; reflexivity.
    + rewrite !lookup_ge_None_2 by (rewrite toRGBA_length; lia). reflexivity.
  - intros p Hp.
    split; [apply Hshort; cbn [length]; lia|].
    split; [apply Hshort; cbn [length]; lia|].
    split; [apply Hshort; cbn [length]; lia|].
    rewrite toRGBA_lookup by lia. reflexivity.
Qed.

Lemma short_output_paints_black_witness :
  toRGBA [of_Z 1] !! (5 * 4 + 2)%nat = Some 0.
Proof.
  destruct (short_output_paints_black [of_Z 1]) as (_ & H & _).
  apply H; unfold planeSize, IMG_H, IMG_W; cbn [length]; lia.
Defined.

End Presentation.

(** ** Labels and the low end of the clamp *)

Section LabelsAndClamp.
Import JS Ort Engine Pixels Render Facts.

Lemma slider_labels_checked :
  forallb (fun n => bool_decide
                      (toFixed2 (sliderValue (Z.of_nat n))
                       = Some (decimal2 (slider_hundredths (Z.of_nat n)))))
          (seq 0 121) = true.
Proof. vm_compute. reflexivity. Qed.

Lemma toFixed2_sliderValue (k : Z) :
  toFixed2 (sliderValue k) = Some (decimal2 (slider_hundredths k)).
Proof.
  set (k' := Z.max 0 (Z.min slider_steps k)).
  assert (Hk : 0 <= k' <= 120) by (unfold k'; change slider_steps with 120; lia).
  assert (Hclamp : Z.max 0 (Z.min slider_steps k') = k')
    by (change slider_steps with 120; lia).
  assert (Hv : sliderValue k = sliderValue (Z.of_nat (Z.to_nat k'))).
  { unfold sliderValue. fold k'. rewrite Z2Nat.id, Hclamp by lia. reflexivity. }
  assert (Hh : slider_hundredths k = slider_hundredths (Z.of_nat (Z.to_nat k'))).
  { unfold slider_hundredths. fold k'. rewrite Z2Nat.id, Hclamp by lia. reflexivity. }
  rewrite Hv, Hh.
  pose proof slider_labels_checked as Hall. rewrite forallb_forall in Hall.
  eapply bool_decide_eq_true_1, Hall, in_seq. lia.
Qed.

(** X14. After a slider has been moved, its label shows the step the
    slider is on, written with two decimals: reading the numeral of the
    range input as a number and printing it with [toFixed(2)] gives the
    numeral back, for each of the 121 steps from -3.00 to 3.00. *)
Theorem slider_label_shows_step (e : Engine) (i : nat) (k : Z) :
  (i < length (latent (st e)))%nat ->
  labels (st (dispatch (SliderInput i k) e)) !! i
  = Some (Some ("z[" +:+ pretty i +:+ "] = " +:+ decimal2 (slider_hundredths k))).
Proof.
  intros Hi. unfold labels. rewrite list_lookup_imap.
  cbn [dispatch]. destruct (decide _); [|contradiction].
  unfold handleSliderChange. rewrite commit_st.
  cbn [apply_updates fold_left apply_update latent]. unfold array_set.
  destruct (decide _); [|contradiction].
  rewrite list_lookup_insert_eq by exact Hi. cbn [fmap option_fmap option_map].
  unfold label. rewrite toFixed2_sliderValue. reflexivity.
Qed.

Lemma slider_label_shows_step_witness :
  labels (st (dispatch (SliderInput 3 1) (Mock.loaded Mock.lstmOnes))) !! 3%nat
  = Some (Some "z[3] = -2.95").
Proof.
  assert (Hi : (3 < length (latent (st (Mock.loaded Mock.lstmOnes))))%nat)
    by (vm_compute; lia).
  exact (slider_label_shows_step (Mock.loaded Mock.lstmOnes) 3 1 Hi).
Defined.

Lemma binary_round_aux_sign (sx : bool) (mx ex : Z) (lx : location) :
  not_positive (binary_round_aux prec64 emax64 sx mx ex lx) = true
  \/ exists m e, binary_round_aux prec64 emax64 sx mx ex lx = S754_finite sx m e
  \/ binary_round_aux prec64 emax64 sx mx ex lx = S754_infinity sx.
Proof.
  unfold binary_round_aux.
  destruct (shr_fexp prec64 emax64 mx ex lx) as [mrs' e'].
  destruct (shr_fexp prec64 emax64 _ e' loc_Exact) as [mrs'' e''].
  destruct (shr_m mrs'') as [|m|m].
  - left. reflexivity.
  - right. exists m, e''. destruct (e'' <=? emax64 - prec64); auto.
  - left. reflexivity.
Qed.

Lemma negative_round_aux (mx ex : Z) (lx : location) :
  not_positive (binary_round_aux prec64 emax64 true mx ex lx) = true.
Proof.
  destruct (binary_round_aux_sign true mx ex lx) as [H|(m & e & [H|H])];
    [exact H|rewrite H; reflexivity|rewrite H; reflexivity].
Qed.

Lemma mul_255_not_positive (v : number) :
  not_positive v = true -> not_positive (mul v (of_Z 255)) = true.
Proof.
  change (of_Z 255) with (S754_finite false 8972014882652160 (-45)).
  destruct v as [s|s| |s m e]; cbn [not_positive]; intros Hv; try reflexivity.
  - subst s. reflexivity.
  - subst s. unfold mul, SFmul. cbn [xorb]. apply negative_round_aux.
Qed.

Lemma Math_round_not_positive (x : number) :
  not_positive x = true -> not_positive (Math_round x) = true.
Proof.
  destruct x as [s|s| |s m e]; cbn [not_positive Math_round]; intros Hx; try assumption.
  subst s. destruct (0 <=? e) eqn:He; [reflexivity|].
  apply Z.leb_gt in He. cbn [cond_Zopp].
  assert (Hp : 0 < 2 ^ (- e)) by (apply Z.pow_pos_nonneg; lia).
  assert (Hd : 2 ^ (1 - e) = 2 * 2 ^ (- e)).
  { replace (1 - e) with (Z.succ (- e)) by lia. apply Z.pow_succ_r. lia. }
  assert (Hr : (2 * - Z.pos m + 2 ^ (- e)) / 2 ^ (1 - e) <= 0).
  { assert ((2 * - Z.pos m + 2 ^ (- e)) / 2 ^ (1 - e) < 1); [|lia].
    apply Z.div_lt_upper_bound; lia. }
  destruct ((2 * - Z.pos m + 2 ^ (- e)) / 2 ^ (1 - e)) as [|p|p]; [reflexivity|lia|].
  unfold binary_normalize, binary_round.
  destruct (shl_align _ _ _) as [mz ez]. apply negative_round_aux.
Qed.

Lemma clamp_not_positive (y : number) :
  not_positive y = true ->
  ToUint8Clamp (Math_max (of_Z 0) (Math_min (of_Z 255) y)) = 0.
Proof.
  change (of_Z 255) with (S754_finite false 8972014882652160 (-45)).
  change (of_Z 0) with (S754_zero false).
  destruct y as [s|s| |s m e]; cbn [not_positive]; intros Hy; try subst s;
    reflexivity.
Qed.

(** X15. The low end of the clamp, for every value: a decoder value
    that is negative, a zero of either sign, minus infinity or NaN gives
    the byte 0, however large its magnitude. *)
Theorem not_positive_value_gives_zero (v : number) :
  not_positive v = true -> channelByte v = 0.
Proof.
  intros Hv. unfold channelByte.
  apply clamp_not_positive, Math_round_not_positive, mul_255_not_positive, Hv.
Qed.

Lemma not_positive_value_gives_zero_witness :
  channelByte (div (of_Z (-7)) (of_Z 2)) = 0.
Proof.
  apply not_positive_value_gives_zero. vm_compute. reflexivity.
Defined.

End LabelsAndClamp.
